(** * ShopSmart sales dashboard: the loading, validation and aggregation
      pipeline of [src/app.py]

    The program is a Streamlit script over pandas.  The embedding keeps the
    shape of the source: [load_data] is the sequence of checks of the [try]
    body followed by the three [except] handlers, [calculate_kpis] and the two
    chart builders are column operations on the loaded frame, [main] is the
    list of elements the script sends to the page.

    What the libraries do is written out as far as the program relies on it:
    - a path holds no file, a delimited file, or something that answers
      [os.path.exists] and cannot be read as one (a directory, a file
      without read permission, bytes that are no text), with the exception
      [read_csv] then raises, which the [except] clauses catch by its
      class;
    - a CSV file is its header and its lines, already split into fields; a
      line shorter than the header is completed with missing fields, and the
      fields of a line beyond the header are not looked at (pandas refuses
      such a file or takes its first column as the index);
    - [read_csv] reads a field that is one of pandas' default NA markers as
      missing; a column is [int64] when every field is an integer literal
      within 64 bits, [float64] when every field that is present is a
      number (a column of integers with a missing field is [float64]), and
      text otherwise; a column of [True] and [False], which pandas reads as
      booleans, and a column of integers beyond 64 bits are not told apart
      from these;
    - a decimal literal becomes the binary64 number pandas' converter
      computes: the digits are gathered into a number that is scaled by a
      power of ten, each step rounded to the nearest binary64;
    - the [parse_dates] column becomes timestamps when every field that is
      present is a calendar day written [YYYY-MM-DD], and stays text
      otherwise; days written in another way, which pandas also reads, stay
      text here;
    - an [int64] sum wraps around at 64 bits; the order in which numpy and
      pandas add up a [float64] column, and the order [sort_values] leaves
      groups of equal sum in, are the libraries' ([Numpy] below): the
      theorems hold for every such choice;
    - [groupby] drops the records whose key is missing and orders the groups
      by key;
    - [st.cache_data] keys its entries by the arguments of the call. *)

From Stdlib Require Import ZArith List String Ascii Bool Lia DecimalString.
From Stdlib Require Import Permutation Sorted SpecFloat.
Import ListNotations.

Local Open Scope string_scope.
Local Open Scope Z_scope.

(* ================================================================== *)
(** * Exceptions and the error monad *)

(** The exceptions the script can meet, by the [except] clause that
    catches them.  [FileNotFoundError] and [ValueError] stand for their
    subclasses too ([EmptyDataError], [ParserError] and
    [UnicodeDecodeError] are [ValueError]s); the text of a [TypeError] or
    a [KeyError] is the interpreter's and is not spelled out.
    [OtherError] is an exception of any other class, with the name of its
    class ([IsADirectoryError], [PermissionError], ...). *)
Inductive exn : Type :=
| FileNotFoundError (msg : string)
| ValueError (msg : string)
| TypeError
| KeyError (key : string)
| OtherError (class msg : string).

Definition result (A : Type) : Type := (A + exn)%type.

Definition ret {A : Type} (a : A) : result A := inl a.
Definition raise {A : Type} (e : exn) : result A := inr e.

Definition bind {A B : Type} (c : result A) (k : A -> result B) : result B :=
  match c with
  | inl a => k a
  | inr e => inr e
  end.

Notation "x <- c ;; k" := (bind c (fun x => k))
  (at level 61, c at next level, right associativity).

(** [if cond: raise e] followed by the rest of the block. *)
Definition raise_if (cond : bool) (e : exn) : result unit :=
  if cond then raise e else ret tt.

(* ================================================================== *)
(** * Binary64 numbers *)

(** A [float64]: the IEEE 754 binary64 numbers, with the operations of
    the standard library, rounded to nearest, ties to even. *)
Definition float : Type := spec_float.

Definition prec : Z := 53.
Definition emax : Z := 1024.

Definition float_of_Z (z : Z) : float := binary_normalize prec emax z 0 false.
Definition fadd : float -> float -> float := SFadd prec emax.
Definition fmul : float -> float -> float := SFmul prec emax.
Definition fdiv : float -> float -> float := SFdiv prec emax.

Definition zero : float := S754_zero false.

(** [x <= y] and [x < y] on binary64: false when one side is not a
    number. *)
Definition fleb : float -> float -> bool := SFleb.
Definition fltb : float -> float -> bool := SFltb.

(** The place of a binary64 number on the line, as a sequence of integers
    to be compared from the left: what is not a number comes first, as the
    sorts of numpy have it last in descending order, then the numbers by
    size.  [signed_zero] tells whether [-0.0] is kept apart from [0.0]. *)
Definition float_key (signed_zero : bool) (x : float) : list Z :=
  match x with
  | S754_nan => [0]
  | S754_infinity true => [1]
  | S754_finite true m e => [2; - e; - Z.pos m]
  | S754_zero s => if signed_zero && s then [3] else [4]
  | S754_finite false m e => [5; e; Z.pos m]
  | S754_infinity false => [6]
  end.

(** Sequences of integers, compared from the left. *)
Fixpoint lex_compare (a b : list Z) : comparison :=
  match a, b with
  | [], [] => Eq
  | [], _ :: _ => Lt
  | _ :: _, [] => Gt
  | x :: a', y :: b' =>
      match Z.compare x y with
      | Eq => lex_compare a' b'
      | c => c
      end
  end.

(* ================================================================== *)
(** * Cells, series and frames *)

(** A cell of a frame.  [NaN] is the missing value ([NaT] in a timestamp
    column); [Int] is a cell of an [int64] column and [Float] a number of
    a [float64] column; a timestamp is a calendar day written as the
    number [yyyymmdd], so that the order of the numbers is the order of
    the days. *)
Inductive value : Type :=
| NaN
| Int (z : Z)
| Float (x : float)
| Str (s : string)
| Timestamp (day : Z).

Definition Series : Type := list value.

(** A frame is held by columns, as pandas holds it. *)
Definition DataFrame : Type := list (string * Series).

Definition columns (df : DataFrame) : list string := map fst df.

(** [df[c]] *)
Fixpoint getitem (df : DataFrame) (c : string) : result Series :=
  match df with
  | [] => raise (KeyError c)
  | (name, s) :: rest => if String.eqb name c then ret s else getitem rest c
  end.

(** [c in l] on lists of strings *)
Definition mem (c : string) (l : list string) : bool :=
  existsb (String.eqb c) l.

(** The code points of a text. *)
Definition codes (s : string) : list Z :=
  map (fun c => Z.of_N (N_of_ascii c)) (list_ascii_of_string s).

(** The place of a cell among the cells of its column: numbers by size,
    text by code point, days by date.  Across kinds (which one column
    never mixes) the order is the order of the constructors. *)
Definition value_key (signed_zero : bool) (v : value) : list Z :=
  match v with
  | NaN => [0]
  | Int z => [1; z]
  | Float x => 2 :: float_key signed_zero x
  | Str s => 3 :: codes s
  | Timestamp day => [4; day]
  end.

(** The order of the keys of a grouping. *)
Definition value_compare (a b : value) : comparison :=
  lex_compare (value_key true a) (value_key true b).

Definition value_eqb (a b : value) : bool :=
  match value_compare a b with
  | Eq => true
  | _ => false
  end.

(** [a <= b] on the sums of a grouping: the order [sort_values] sorts
    by. *)
Definition amount_leb (a b : value) : bool :=
  match lex_compare (value_key false a) (value_key false b) with
  | Gt => false
  | _ => true
  end.

(** [s.isnull()] *)
Definition isnull (v : value) : bool :=
  match v with
  | NaN => true
  | _ => false
  end.

Definition notnull (v : value) : bool := negb (isnull v).

(** [.any()] on a boolean series *)
Definition any (m : list bool) : bool := existsb (fun b => b) m.

(** [s <= k]: a missing value compares false, text against a number is a
    [TypeError]. *)
Fixpoint le_scalar (s : Series) (k : Z) : result (list bool) :=
  match s with
  | [] => ret []
  | v :: rest =>
      b <- match v with
           | NaN => ret false
           | Int z => ret (z <=? k)
           | Float x => ret (fleb x (float_of_Z k))
           | _ => raise TypeError
           end ;;
      m <- le_scalar rest k ;;
      ret (b :: m)
  end.

(** [s < k] *)
Fixpoint lt_scalar (s : Series) (k : Z) : result (list bool) :=
  match s with
  | [] => ret []
  | v :: rest =>
      b <- match v with
           | NaN => ret false
           | Int z => ret (z <? k)
           | Float x => ret (fltb x (float_of_Z k))
           | _ => raise TypeError
           end ;;
      m <- lt_scalar rest k ;;
      ret (b :: m)
  end.

(** [s.isin(allowed)] for a set of strings *)
Definition isin (allowed : list string) (v : value) : bool :=
  match v with
  | Str s => mem s allowed
  | _ => false
  end.

(** [df[mask][c]]: the cells of a column at the records the mask keeps *)
Fixpoint select (mask : list bool) (s : Series) : Series :=
  match mask, s with
  | b :: mask', v :: s' => if b then v :: select mask' s' else select mask' s'
  | _, _ => []
  end.

(** [s.unique()]: the distinct values in order of first appearance *)
Fixpoint unique (s : Series) : Series :=
  match s with
  | [] => []
  | v :: rest => v :: filter (fun w => negb (value_eqb v w)) (unique rest)
  end.

(** [', '.join(values)]: every item has to be a [str] *)
Fixpoint strings_of (s : Series) : result (list string) :=
  match s with
  | [] => ret []
  | Str t :: rest => l <- strings_of rest ;; ret (t :: l)
  | _ :: _ => raise TypeError
  end.

Definition join (sep : string) (l : list string) : string :=
  String.concat sep l.

(** [s.nunique()]: the number of distinct values, missing ones left out *)
Definition nunique (s : Series) : nat :=
  List.length (unique (filter notnull s)).

(** The type pandas holds a column in. *)
Inductive dtype : Type := int64 | float64 | datetime64 | object.

Definition is_int (v : value) : bool :=
  match v with
  | Int _ => true
  | _ => false
  end.

Definition is_number (v : value) : bool :=
  match v with
  | NaN | Int _ | Float _ => true
  | _ => false
  end.

Definition is_day (v : value) : bool :=
  match v with
  | NaN | Timestamp _ => true
  | _ => false
  end.

Definition is_str (v : value) : bool :=
  match v with
  | Str _ => true
  | _ => false
  end.

Definition dtype_of (s : Series) : dtype :=
  if forallb is_int s then int64
  else if forallb is_number s then float64
  else if forallb is_day s then datetime64
  else object.

(** A 64-bit integer of two's complement: what is left of a number that
    does not fit. *)
Definition wrap64 (z : Z) : Z := (z + 2 ^ 63) mod 2 ^ 64 - 2 ^ 63.

(** The integers of a column, added up. *)
Fixpoint int_sum (s : Series) : Z :=
  match s with
  | [] => 0
  | Int z :: rest => z + int_sum rest
  | _ :: rest => int_sum rest
  end.

(** The numbers of a [float64] column. *)
Definition to_float (v : value) : float :=
  match v with
  | Float x => x
  | Int z => float_of_Z z
  | _ => zero
  end.

(** The texts of a column, one after the other. *)
Fixpoint text_sum (s : Series) : string :=
  match s with
  | [] => ""
  | Str t :: rest => t ++ text_sum rest
  | _ :: rest => text_sum rest
  end.

(* ================================================================== *)
(** * Reading the file *)

(** A delimited file: the names of the header line and the fields of each
    data line. *)
Record csv : Type := {
  header : list string;
  lines : list (list string)
}.

(** What a path of the machine leads to: a delimited file, or something
    that is there and that [read_csv] cannot read, with the exception it
    raises. *)
Inductive entry : Type :=
| File (f : csv)
| Unreadable (e : exn).

(** The files of the machine. *)
Definition filesystem : Type := string -> option entry.

(** [os.path.exists(filepath)] *)
Definition path_exists (fs : filesystem) (filepath : string) : bool :=
  match fs filepath with
  | Some _ => true
  | None => false
  end.

(** The fields [read_csv] reads as missing (pandas' default [na_values]). *)
Definition na_values : list string :=
  [""; "#N/A"; "#N/A N/A"; "#NA"; "-1.#IND"; "-1.#QNAN"; "-NaN"; "-nan";
   "1.#IND"; "1.#QNAN"; "<NA>"; "N/A"; "NA"; "NULL"; "NaN"; "None"; "n/a";
   "nan"; "null"].

Definition is_na (field : string) : bool := mem field na_values.

Definition digit (c : ascii) : option Z :=
  let n := Z.of_N (N_of_ascii c) in
  if (48 <=? n) && (n <=? 57) then Some (n - 48) else None.

Fixpoint digits (acc : Z) (s : string) : option Z :=
  match s with
  | EmptyString => Some acc
  | String c rest =>
      match digit c with
      | Some d => digits (10 * acc + d) rest
      | None => None
      end
  end.

(** The blanks the converters of the reader skip around a number. *)
Definition isspace (c : ascii) : bool :=
  let n := Z.of_N (N_of_ascii c) in
  (n =? 32) || ((9 <=? n) && (n <=? 13)).

Fixpoint skip_spaces (s : string) : string :=
  match s with
  | String c rest => if isspace c then skip_spaces rest else s
  | EmptyString => s
  end.

(** An optional sign: whether it was a minus, and what follows it. *)
Definition sign (s : string) : bool * string :=
  match s with
  | String "-" rest => (true, rest)
  | String "+" rest => (false, rest)
  | _ => (false, s)
  end.

(** The digits at the front of a text, as a number, and what follows
    them. *)
Fixpoint leading_digits (acc : Z) (s : string) : Z * string :=
  match s with
  | String c rest =>
      match digit c with
      | Some d => leading_digits (10 * acc + d) rest
      | None => (acc, s)
      end
  | EmptyString => (acc, s)
  end.

Definition starts_with_digit (s : string) : bool :=
  match s with
  | String c _ => match digit c with Some _ => true | None => false end
  | EmptyString => false
  end.

(** An integer literal: blanks, an optional sign, digits, blanks. *)
Definition to_int (field : string) : option Z :=
  let (negative, s) := sign (skip_spaces field) in
  if starts_with_digit s then
    let (n, rest) := leading_digits 0 s in
    match skip_spaces rest with
    | EmptyString => Some (if negative then - n else n)
    | _ => None
    end
  else None.

Definition in_int64 (z : Z) : bool := (- 2 ^ 63 <=? z) && (z <? 2 ^ 63).

(** The digits of a decimal literal go into a binary64 number, the first
    17 of them; a digit of the integer part beyond these raises the power
    of ten, a digit of the fraction among these lowers it.  The state is
    the number, the count of digits taken and the power of ten. *)
Fixpoint integer_part (s : string) (number : float) (taken : nat)
  (exponent : Z) : float * nat * Z * string :=
  match s with
  | String c rest =>
      match digit c with
      | Some d =>
          if (taken <? 17)%nat
          then integer_part rest
                 (fadd (fmul number (float_of_Z 10)) (float_of_Z d))
                 (S taken) exponent
          else integer_part rest number taken (exponent + 1)
      | None => (number, taken, exponent, s)
      end
  | EmptyString => (number, taken, exponent, s)
  end.

Fixpoint fraction_part (s : string) (number : float) (taken : nat)
  (exponent : Z) : float * nat * Z * string :=
  match s with
  | String c rest =>
      match digit c with
      | Some d =>
          if (taken <? 17)%nat
          then fraction_part rest
                 (fadd (fmul number (float_of_Z 10)) (float_of_Z d))
                 (S taken) (exponent - 1)
          else fraction_part rest number taken exponent
      | None => (number, taken, exponent, s)
      end
  | EmptyString => (number, taken, exponent, s)
  end.

(** The exponent of a literal, [e] or [E] with an optional sign and at
    least one digit; without a digit the letter is left where it is. *)
Definition exponent_part (s : string) : Z * string :=
  match s with
  | String c rest =>
      if Ascii.eqb c "e" || Ascii.eqb c "E" then
        let (negative, t) := sign rest in
        if starts_with_digit t then
          let (n, t') := leading_digits 0 t in
          (if negative then - n else n, t')
        else (0, s)
      else (0, s)
  | EmptyString => (0, s)
  end.

(** The number times ten to the exponent; beyond 308 the converter gives
    up. *)
Definition scale (number : float) (exponent : Z) : option float :=
  if 308 <? exponent then None
  else if 0 <? exponent then
    Some (fmul number (float_of_Z (10 ^ exponent)))
  else if exponent <? - 308 then
    if exponent <? - 616 then Some zero
    else Some (fdiv (fdiv number (float_of_Z (10 ^ (- 308 - exponent))))
                 (float_of_Z (10 ^ 308)))
  else Some (fdiv number (float_of_Z (10 ^ (- exponent)))).

Definition is_infinite (x : float) : bool :=
  match x with
  | S754_infinity _ => true
  | _ => false
  end.

(** A decimal literal: blanks, an optional sign, digits with an optional
    point among them, an optional exponent, blanks. *)
Definition decimal_literal (field : string) : option float :=
  let (negative, s) := sign (skip_spaces field) in
  let '(number, taken, exponent, s) := integer_part s zero 0 0 in
  let '(number, taken, exponent, s) :=
    match s with
    | String "." rest => fraction_part rest number taken exponent
    | _ => (number, taken, exponent, s)
    end in
  if (taken =? 0)%nat then None
  else
    let number := if negative then SFopp number else number in
    let (e, s) := exponent_part s in
    match scale number (exponent + e), skip_spaces s with
    | Some x, EmptyString => if is_infinite x then None else Some x
    | _, _ => None
    end.

Definition lower (c : ascii) : ascii :=
  let n := N_of_ascii c in
  if ((65 <=? n) && (n <=? 90))%N then ascii_of_N (n + 32) else c.

Fixpoint lowercase (s : string) : string :=
  match s with
  | String c rest => String (lower c) (lowercase rest)
  | EmptyString => EmptyString
  end.

(** The number of a field of a [float64] column: a decimal literal, or
    one of the names of the infinities, in any case of the letters. *)
Definition parse_float (field : string) : option float :=
  match decimal_literal field with
  | Some x => Some x
  | None =>
      let word := lowercase field in
      if mem word ["inf"; "+inf"; "infinity"; "+infinity"]
      then Some (S754_infinity false)
      else if mem word ["-inf"; "-infinity"]
      then Some (S754_infinity true)
      else None
  end.

Definition leap_year (y : Z) : bool :=
  ((y mod 4 =? 0) && negb (y mod 100 =? 0)) || (y mod 400 =? 0).

Definition days_in_month (y m : Z) : Z :=
  if (m =? 4) || (m =? 6) || (m =? 9) || (m =? 11) then 30
  else if m =? 2 then (if leap_year y then 29 else 28)
  else 31.

(** A day of the calendar written [YYYY-MM-DD], in the years a timestamp
    of pandas covers. *)
Definition to_day (field : string) : option Z :=
  if (String.length field =? 10)%nat then
    match digits 0 (substring 0 4 field), get 4 field,
          digits 0 (substring 5 2 field), get 7 field,
          digits 0 (substring 8 2 field) with
    | Some y, Some "-"%char, Some m, Some "-"%char, Some d =>
        if (1678 <=? y) && (y <=? 2261) && (1 <=? m) && (m <=? 12)
           && (1 <=? d) && (d <=? days_in_month y m)
        then Some (y * 10000 + m * 100 + d)
        else None
    | _, _, _, _, _ => None
    end
  else None.

Definition is_some {A : Type} (o : option A) : bool :=
  match o with
  | Some _ => true
  | None => false
  end.

(** An integer literal that fits 64 bits. *)
Definition int64_literal (field : string) : option Z :=
  match to_int field with
  | Some z => if in_int64 z then Some z else None
  | None => None
  end.

(** The cells of a column, from its fields: [int64] when every field is an
    integer literal of 64 bits, [float64] when every field that is present
    is a number, the text of the fields otherwise. *)
Definition infer_column (fields : list string) : Series :=
  if forallb (fun f => is_some (int64_literal f)) fields
  then map (fun f => match int64_literal f with
                     | Some z => Int z
                     | None => NaN
                     end) fields
  else if forallb (fun f => is_na f || is_some (parse_float f)) fields
  then map (fun f => if is_na f then NaN
                     else match parse_float f with
                          | Some x => Float x
                          | None => NaN
                          end) fields
  else map (fun f => if is_na f then NaN else Str f) fields.

(** A [parse_dates] column is read as text and then turned into
    timestamps when every field that is present is a day; when one is not,
    the column stays the text it was read as. *)
Definition date_column (fields : list string) : Series :=
  if forallb (fun f => is_na f || is_some (to_day f)) fields
  then map (fun f => if is_na f then NaN
                     else match to_day f with
                          | Some d => Timestamp d
                          | None => NaN
                          end) fields
  else map (fun f => if is_na f then NaN else Str f) fields.

(** The fields of the column at position [i]; a line that is too short is
    completed with empty fields. *)
Definition column_fields (i : nat) (ls : list (list string)) : list string :=
  map (fun l => nth i l "") ls.

Fixpoint read_columns (parse_dates : list string) (i : nat)
  (names : list string) (ls : list (list string)) : DataFrame :=
  match names with
  | [] => []
  | name :: names' =>
      (name, if mem name parse_dates
             then date_column (column_fields i ls)
             else infer_column (column_fields i ls))
      :: read_columns parse_dates (S i) names' ls
  end.

(** [bool(l)] for a list *)
Definition nonempty {A : Type} (l : list A) : bool :=
  match l with
  | [] => false
  | _ :: _ => true
  end.

(** [pd.read_csv(filepath, parse_dates=...)] *)
Definition read_csv (fs : filesystem) (filepath : string)
  (parse_dates : list string) : result DataFrame :=
  match fs filepath with
  | None => raise (FileNotFoundError filepath)
  | Some (Unreadable e) => raise e
  | Some (File f) =>
      _ <- raise_if (negb (nonempty (header f)))
             (ValueError "No columns to parse from file") ;;
      let missing := filter (fun c => negb (mem c (header f))) parse_dates in
      _ <- raise_if (nonempty missing)
             (ValueError ("Missing column provided to 'parse_dates': '"
                          ++ join ", " missing ++ "'")) ;;
      ret (read_columns parse_dates 0 (header f) (lines f))
  end.

(* ================================================================== *)
(** * The data loader *)

Definition DATA_FILE_PATH : string :=
  "ai-dev-workflow-tutorial/data/sales-data.csv".

Definition required_columns : list string :=
  ["date"; "order_id"; "product"; "category";
   "region"; "quantity"; "unit_price"; "total_amount"].

Definition valid_categories : list string :=
  ["Electronics"; "Accessories"; "Audio"; "Wearables"; "Smart Home"].

Definition valid_regions : list string :=
  ["North"; "South"; "East"; "West"].

(** The values of a column outside a set of names:
    [df[~df[c].isin(allowed)][c].unique()] *)
Definition invalid_values (allowed : list string) (s : Series) : Series :=
  unique (select (map (fun v => negb (isin allowed v)) s) s).

(** The body of the [try] block of [load_data]. *)
Definition load_data_try (fs : filesystem) (filepath : string)
  : result DataFrame :=
  _ <- raise_if (negb (path_exists fs filepath))
         (FileNotFoundError
            ("Data file not found at: " ++ filepath ++ ". "
             ++ "Please ensure sales-data.csv exists in the "
             ++ "ai-dev-workflow-tutorial/data/ directory.")) ;;
  df <- read_csv fs filepath ["date"] ;;
  let missing_cols :=
    filter (fun col => negb (mem col (columns df))) required_columns in
  _ <- raise_if (nonempty missing_cols)
         (ValueError ("CSV is missing required columns: "
                      ++ join ", " missing_cols)) ;;
  total_amount <- getitem df "total_amount" ;;
  _ <- raise_if (any (map isnull total_amount))
         (ValueError "Data contains missing transaction amounts") ;;
  order_id <- getitem df "order_id" ;;
  _ <- raise_if (any (map isnull order_id))
         (ValueError "Data contains missing order IDs") ;;
  total_amount <- getitem df "total_amount" ;;
  non_positive <- le_scalar total_amount 0 ;;
  _ <- raise_if (any non_positive)
         (ValueError "Data contains non-positive transaction amounts") ;;
  quantity <- getitem df "quantity" ;;
  below_one <- lt_scalar quantity 1 ;;
  _ <- raise_if (any below_one)
         (ValueError "Data contains invalid quantities (must be >= 1)") ;;
  category <- getitem df "category" ;;
  let invalid_cats := invalid_values valid_categories category in
  _ <- (if (0 <? List.length invalid_cats)%nat
        then names <- strings_of invalid_cats ;;
             raise (ValueError ("Data contains invalid categories: "
                                ++ join ", " names))
        else ret tt) ;;
  region <- getitem df "region" ;;
  let invalid_regions := invalid_values valid_regions region in
  _ <- (if (0 <? List.length invalid_regions)%nat
        then names <- strings_of invalid_regions ;;
             raise (ValueError ("Data contains invalid regions: "
                                ++ join ", " names))
        else ret tt) ;;
  ret df.

(* ================================================================== *)
(** * The page *)

Inductive chart_kind : Type := Line | Bar.

(** A plotly figure, by the arguments the builders give it. *)
Record Figure : Type := {
  kind : chart_kind;
  x_name : string;
  y_name : string;
  x : list value;
  y : list value;
  fig_title : string;
  labels : list (string * string);
  color : string;
  hovertemplate : string;
  yaxis_tickformat : string;
  categoryorder : option string;
  height : Z
}.

(** What the script sends to the page.  [st_error heading e] is
    [st.error(f"{heading}: {str(e)}")]. *)
Inductive element : Type :=
| st_title (text : string)
| st_error (heading : string) (e : exn)
| st_columns (n : nat)
| st_metric (label : string) (shown : string)
| st_plotly_chart (fig : Figure) (use_container_width : bool).

(** [load_data], without its cache: the frame, or the error box after which
    [st.stop()] ends the run. *)
Definition load_data (fs : filesystem) (filepath : string)
  : DataFrame + list element :=
  match load_data_try fs filepath with
  | inl df => inl df
  | inr (FileNotFoundError msg) =>
      inr [st_error "❌ **Data Loading Error**" (FileNotFoundError msg)]
  | inr (ValueError msg) =>
      inr [st_error "❌ **Data Validation Error**" (ValueError msg)]
  | inr e =>
      inr [st_error "❌ **Unexpected Error**" e]
  end.

(** The entries of [st.cache_data]: the result of a call, under the
    argument it was made with. *)
Definition cache : Type := list (string * DataFrame).

Fixpoint cache_lookup (c : cache) (key : string) : option DataFrame :=
  match c with
  | [] => None
  | (k, df) :: rest => if String.eqb k key then Some df else cache_lookup rest key
  end.

(** [@st.cache_data]: a call whose argument has an entry returns the entry
    and does not run the function; a call that returns stores its result; a
    call that is stopped stores nothing. *)
Definition cache_data (f : filesystem -> string -> DataFrame + list element)
  (fs : filesystem) (c : cache) (filepath : string)
  : (DataFrame + list element) * cache :=
  match cache_lookup c filepath with
  | Some df => (inl df, c)
  | None =>
      match f fs filepath with
      | inl df => (inl df, (filepath, df) :: c)
      | inr stopped => (inr stopped, c)
      end
  end.

(** The successive calls of the cached [load_data] on one path. *)
Fixpoint loads (states : list filesystem) (c : cache) (filepath : string)
  : list (DataFrame + list element) :=
  match states with
  | [] => []
  | fs :: later =>
      let (r, c') := cache_data load_data fs c filepath in
      r :: loads later c' filepath
  end.

(* ================================================================== *)
(** * What is left to numpy and pandas *)

(** The order of the category chart: the larger sum first. *)
Definition sum_desc (a b : value * value) : Prop :=
  amount_leb (snd b) (snd a) = true.

(** The routines of the libraries whose result depends on how they go
    about it: the sum of a [float64] array (numpy adds it up in blocks and
    pairs), the sum of the [float64] cells of a group (pandas carries a
    correction term along), and the sort of [sort_values], which is not
    stable.  Of the sort it is known that it rearranges the groups and
    leaves the sums in non-increasing order; nothing is known of the two
    sums but that they are functions of the numbers in their order. *)
Class Numpy : Type := {
  float_sum : list float -> float;
  group_sum : list float -> float;
  sort_values_desc : list (value * value) -> list (value * value);
  sort_values_desc_perm :
    forall l, Permutation (sort_values_desc l) l;
  sort_values_desc_sorted :
    forall l, StronglySorted sum_desc (sort_values_desc l)
}.

(** One such choice: the numbers are added from left to right, and a
    group goes in front of the first group whose sum is not larger. *)
Definition sum_left (l : list float) : float := fold_left fadd l zero.

Fixpoint insert_desc (p : value * value) (l : list (value * value))
  : list (value * value) :=
  match l with
  | [] => [p]
  | q :: l' =>
      if amount_leb (snd q) (snd p) then p :: q :: l'
      else q :: insert_desc p l'
  end.

Fixpoint insertion_sort_desc (l : list (value * value))
  : list (value * value) :=
  match l with
  | [] => []
  | p :: l' => insert_desc p (insertion_sort_desc l')
  end.

Definition left_to_right : Numpy.
Proof.
  assert (opp : forall a b, lex_compare b a = CompOpp (lex_compare a b)).
  { induction a as [|u a IH]; destruct b as [|v b]; simpl; try reflexivity.
    rewrite (Z.compare_antisym u v).
    destruct (u ?= v); simpl; auto. }
  assert (eq : forall a b, lex_compare a b = Eq -> a = b).
  { induction a as [|u a IH]; destruct b as [|v b]; simpl;
      try discriminate; auto.
    destruct (u ?= v) eqn:E; try discriminate.
    intros H. apply Z.compare_eq in E. f_equal; auto. }
  assert (lt : forall a b c, lex_compare a b = Lt -> lex_compare b c = Lt ->
                             lex_compare a c = Lt).
  { induction a as [|u a IH]; destruct b as [|v b]; destruct c as [|w c];
      simpl; try discriminate; auto.
    destruct (u ?= v) eqn:E1; try discriminate;
      destruct (v ?= w) eqn:E2; try discriminate; intros H1 H2.
    - apply Z.compare_eq in E1, E2. subst. rewrite Z.compare_refl. eauto.
    - apply Z.compare_eq in E1. subst. now rewrite E2.
    - apply Z.compare_eq in E2. subst. now rewrite E1.
    - rewrite Z.compare_lt_iff in E1, E2.
      assert (E : (u ?= w) = Lt) by (rewrite Z.compare_lt_iff; lia).
      now rewrite E. }
  assert (total : forall a b, amount_leb a b = false -> amount_leb b a = true).
  { intros a b. unfold amount_leb.
    rewrite (opp (value_key false a) (value_key false b)).
    destruct (lex_compare (value_key false a) (value_key false b));
      simpl; congruence. }
  assert (trans : forall a b c, amount_leb a b = true -> amount_leb b c = true ->
                                amount_leb a c = true).
  { intros a b c. unfold amount_leb.
    destruct (lex_compare (value_key false a) (value_key false b)) eqn:E1;
      try discriminate;
      destruct (lex_compare (value_key false b) (value_key false c)) eqn:E2;
      try discriminate; intros _ _.
    - apply eq in E1. rewrite E1, E2. reflexivity.
    - apply eq in E1. rewrite E1, E2. reflexivity.
    - apply eq in E2. rewrite <- E2, E1. reflexivity.
    - now rewrite (lt _ _ _ E1 E2). }
  assert (insert_perm : forall p l, Permutation (insert_desc p l) (p :: l)).
  { induction l as [|q l IH]; simpl; auto.
    destruct (amount_leb (snd q) (snd p)); auto.
    eapply perm_trans; [apply perm_skip, IH | apply perm_swap]. }
  assert (insert_sorted : forall p l, StronglySorted sum_desc l ->
                                      StronglySorted sum_desc (insert_desc p l)).
  { induction l as [|q l IH]; simpl; intros Hs.
    - constructor; auto.
    - inversion Hs as [|? ? Hl Hq]; subst.
      destruct (amount_leb (snd q) (snd p)) eqn:E.
      + constructor; auto. constructor; auto.
        rewrite Forall_forall in *. intros r Hr. unfold sum_desc in *.
        apply (trans _ (snd q)); auto.
      + constructor; auto.
        rewrite Forall_forall in *. intros r Hr.
        apply (Permutation_in _ (insert_perm p l)) in Hr.
        destruct Hr as [<-|Hr]; auto.
        unfold sum_desc. now apply total. }
  refine {| float_sum := sum_left;
            group_sum := sum_left;
            sort_values_desc := insertion_sort_desc |}.
  - induction l as [|p l IH]; simpl; auto.
    eapply perm_trans; [apply insert_perm | now apply perm_skip].
  - induction l as [|p l IH]; simpl; [constructor | now apply insert_sorted].
Defined.

(* ================================================================== *)
(** * The aggregator and the chart builders *)

Section Dashboard.

Context {np : Numpy}.

(** [s.sum()]: an [int64] column is added up in 64 bits; in a [float64]
    column a missing value counts as 0.0; a column of text is put
    together, and a missing value among the texts cannot be added to
    them; timestamps have no sum.  The sum of no cell is 0. *)
Definition series_sum (s : Series) : result value :=
  match dtype_of s with
  | int64 => ret (Int (wrap64 (int_sum s)))
  | float64 => ret (Float (float_sum (map to_float s)))
  | datetime64 => raise TypeError
  | object => if forallb is_str s then ret (Str (text_sum s))
              else raise TypeError
  end.

(** The keys of the groups so far and one more key: the keys stay
    distinct and in ascending order. *)
Fixpoint insert_key (k : value) (ks : list value) : list value :=
  match ks with
  | [] => [k]
  | k' :: rest =>
      match value_compare k k' with
      | Eq => ks
      | Lt => k :: ks
      | Gt => k' :: insert_key k rest
      end
  end.

(** The keys of a grouping: a record whose key is missing is in no
    group. *)
Fixpoint group_keys (keys : Series) : list value :=
  match keys with
  | [] => []
  | k :: rest =>
      if isnull k then group_keys rest else insert_key k (group_keys rest)
  end.

(** The cells of the records under the key [k], in the order of the
    records. *)
Definition cells_under (k : value) (records : list (value * value)) : Series :=
  map snd (filter (fun r => value_eqb k (fst r)) records).

(** The sum of the cells of one group, for the type of the column: a
    missing cell adds nothing. *)
Definition group_total (dt : dtype) (cells : Series) : result value :=
  match dt with
  | int64 => ret (Int (wrap64 (int_sum cells)))
  | float64 => ret (Float (group_sum (map to_float (filter notnull cells))))
  | datetime64 => raise TypeError
  | object =>
      match filter notnull cells with
      | [] => ret (Int 0)
      | present => if forallb is_str present then ret (Str (text_sum present))
                   else raise TypeError
      end
  end.

Fixpoint group_totals (dt : dtype) (records : list (value * value))
  (keys : list value) : result (list (value * value)) :=
  match keys with
  | [] => ret []
  | k :: rest =>
      s <- group_total dt (cells_under k records) ;;
      g <- group_totals dt records rest ;;
      ret ((k, s) :: g)
  end.

(** [df.groupby(key)[col].sum()] on the records [(key, cell of col)]. *)
Definition groupby_sum (records : list (value * value))
  : result (list (value * value)) :=
  group_totals (dtype_of (map snd records)) records
    (group_keys (map fst records)).

Record kpis : Type := {
  total_sales : value;
  total_orders : nat
}.

Definition calculate_kpis (df : DataFrame) : result kpis :=
  total_amount <- getitem df "total_amount" ;;
  sales <- series_sum total_amount ;;
  order_id <- getitem df "order_id" ;;
  ret {| total_sales := sales; total_orders := nunique order_id |}.

(** [df.groupby('date')['total_amount'].sum().reset_index()] *)
Definition daily_sales (df : DataFrame) : result (list (value * value)) :=
  date <- getitem df "date" ;;
  total_amount <- getitem df "total_amount" ;;
  groupby_sum (combine date total_amount).

Definition create_sales_trend_chart (df : DataFrame) : result Figure :=
  daily <- daily_sales df ;;
  ret {| kind := Line;
         x_name := "date";
         y_name := "total_amount";
         x := map fst daily;
         y := map snd daily;
         fig_title := "Sales Trend Over Time";
         labels := [("date", "Date"); ("total_amount", "Sales ($)")];
         color := "#1f77b4";
         hovertemplate := "<b>Date</b>: %{x|%Y-%m-%d}<br>"
                          ++ "<b>Sales</b>: $%{y:,.2f}<extra></extra>";
         yaxis_tickformat := "$,.0f";
         categoryorder := None;
         height := 400 |}.

(** [df.groupby('category')['total_amount'].sum()
       .sort_values(ascending=False).reset_index()] *)
Definition category_sales (df : DataFrame) : result (list (value * value)) :=
  category <- getitem df "category" ;;
  total_amount <- getitem df "total_amount" ;;
  sums <- groupby_sum (combine category total_amount) ;;
  ret (sort_values_desc sums).

Definition create_category_chart (df : DataFrame) : result Figure :=
  by_category <- category_sales df ;;
  ret {| kind := Bar;
         x_name := "category";
         y_name := "total_amount";
         x := map fst by_category;
         y := map snd by_category;
         fig_title := "Sales by Product Category";
         labels := [("category", "Product Category");
                    ("total_amount", "Total Sales ($)")];
         color := "#2ca02c";
         hovertemplate := "<b>%{x}</b><br>Sales: $%{y:,.2f}<extra></extra>";
         yaxis_tickformat := "$,.0f";
         categoryorder := Some "total descending";
         height := 400 |}.

(* ================================================================== *)
(** * The script *)

(** Digits in groups of three: the digits come least significant first,
    [seen] counts the digits of the group being filled. *)
Fixpoint commas (rev_digits : list ascii) (seen : nat) : list ascii :=
  match rev_digits with
  | [] => []
  | c :: rest =>
      match seen with
      | 3%nat => ","%char :: c :: commas rest 1
      | _ => c :: commas rest (S seen)
      end
  end.

(** [f"{n:,}"] *)
Definition format_grouped (n : Z) : string :=
  let ds := list_ascii_of_string
              (DecimalString.NilZero.string_of_uint (N.to_uint (Z.abs_N n))) in
  (if n <? 0 then "-" else "")
  ++ string_of_list_ascii (rev (commas (rev ds) 0)).

(** Two digits. *)
Definition two_digits (n : Z) : string :=
  (if n <? 10 then "0" else "")
  ++ DecimalString.NilZero.string_of_uint (N.to_uint (Z.to_N n)).

(** The hundredths nearest to [m * 2 ^ e], the even one of two that are
    equally near. *)
Definition hundredths (m : positive) (e : Z) : Z :=
  if 0 <=? e then Z.pos m * 2 ^ e * 100
  else
    let den := 2 ^ (- e) in
    let q := (Z.pos m * 100) / den in
    let r := (Z.pos m * 100) mod den in
    if den <? 2 * r then q + 1
    else if (den =? 2 * r) && Z.odd q then q + 1
    else q.

(** [f"{x:,.2f}"] for a binary64 number. *)
Definition format_float (x : float) : string :=
  match x with
  | S754_nan => "nan"
  | S754_infinity s => if s then "-inf" else "inf"
  | S754_zero s => if s then "-0.00" else "0.00"
  | S754_finite s m e =>
      let h := hundredths m e in
      (if s then "-" else "")
      ++ format_grouped (h / 100) ++ "." ++ two_digits (h mod 100)
  end.

(** [f"${amount:,.2f}"]: the format is one of numbers. *)
Definition format_currency (amount : value) : result string :=
  match amount with
  | Int z => ret ("$" ++ format_grouped z ++ ".00")
  | Float x => ret ("$" ++ format_float x)
  | NaN => ret "$nan"
  | _ => raise (ValueError "Unknown format code 'f'")
  end.

(** What a run leaves on the page, and the exception that ended it when
    one was not caught. *)
Record page : Type := {
  shown : list element;
  uncaught : option exn
}.

(** [main()], from the cache the earlier runs left; the run gives its page
    and the cache it leaves. *)
Definition main (fs : filesystem) (c : cache) : page * cache :=
  let top := [st_title "📊 ShopSmart Sales Dashboard"] in
  match cache_data load_data fs c DATA_FILE_PATH with
  | (inr stopped, c') => ({| shown := (top ++ stopped)%list; uncaught := None |}, c')
  | (inl df, c') =>
      match calculate_kpis df with
      | inr e => ({| shown := top; uncaught := Some e |}, c')
      | inl k =>
          match format_currency (total_sales k) with
          | inr e =>
              ({| shown := (top ++ [st_columns 2])%list; uncaught := Some e |},
               c')
          | inl sales =>
          let cards :=
            (top ++ [st_columns 2;
                     st_metric "Total Sales" sales;
                     st_metric "Total Orders"
                       (format_grouped (Z.of_nat (total_orders k)))])%list in
          match create_sales_trend_chart df with
          | inr e => ({| shown := cards; uncaught := Some e |}, c')
          | inl trend =>
              let upper :=
                (cards ++ [st_plotly_chart trend true; st_columns 2])%list in
              match create_category_chart df with
              | inr e => ({| shown := upper; uncaught := Some e |}, c')
              | inl by_category =>
                  ({| shown := (upper ++ [st_plotly_chart by_category true])%list;
                      uncaught := None |}, c')
              end
          end
          end
      end
  end.

(** The runs of the script over the successive states of the file system. *)
Fixpoint runs (states : list filesystem) (c : cache) : list page :=
  match states with
  | [] => []
  | fs :: later => let (p, c') := main fs c in p :: runs later c'
  end.

(* ================================================================== *)
(** * Sample files *)

Definition a_file (ls : list (list string)) : csv :=
  {| header := required_columns; lines := ls |}.

(** A file system holding one file, at the path of the dashboard. *)
Definition only (f : csv) : filesystem :=
  fun p => if String.eqb p DATA_FILE_PATH then Some (File f) else None.

(** The three records of the example of the specification. *)
Definition example_lines : list (list string) :=
  [["2024-01-01"; "A"; "Laptop"; "Electronics"; "North"; "1"; "10"; "10"];
   ["2024-01-01"; "A"; "Mouse"; "Accessories"; "North"; "1"; "5"; "5"];
   ["2024-01-02"; "B"; "Speaker"; "Audio"; "South"; "1"; "7"; "7"]].

(** The frame [load_data] returns for a file, the empty frame when the file
    is refused. *)
Definition frame_of (f : csv) : DataFrame :=
  match load_data (only f) DATA_FILE_PATH with
  | inl df => df
  | inr _ => []
  end.

Definition example_frame : DataFrame :=
  Eval vm_compute in frame_of (a_file example_lines).

(** Two records, the second without a date. *)
Definition undated_lines : list (list string) :=
  [["2024-01-01"; "A"; "Laptop"; "Electronics"; "North"; "1"; "10"; "10"];
   [""; "B"; "Mouse"; "Accessories"; "South"; "1"; "5"; "5"]].

Definition undated_frame : DataFrame :=
  Eval vm_compute in frame_of (a_file undated_lines).

(** The records of the example with a unit price of zero, a negative one
    and none. *)
Definition unpriced_lines : list (list string) :=
  [["2024-01-01"; "A"; "Laptop"; "Electronics"; "North"; "1"; "0"; "10"];
   ["2024-01-01"; "A"; "Mouse"; "Accessories"; "North"; "1"; "-5"; "5"];
   ["2024-01-02"; "B"; "Speaker"; "Audio"; "South"; "1"; ""; "7"]].

(** One record, under the order id given. *)
Definition order_lines (order_id : string) : list (list string) :=
  [["2024-01-01"; order_id; "Laptop"; "Electronics"; "North"; "1"; "10"; "10"]].

(** A file with two defects: the order id of its record is empty and its
    region is not one of the four. *)
Definition two_defects_lines : list (list string) :=
  [["2024-01-01"; ""; "Laptop"; "Electronics"; "Centre"; "1"; "10"; "10"]].



(** Three records with amounts in cents. *)
Definition decimal_lines : list (list string) :=
  [["2024-01-01"; "A"; "Cable"; "Accessories"; "North"; "1"; "0.1"; "0.1"];
   ["2024-01-01"; "B"; "Plug"; "Accessories"; "North"; "2"; "0.1"; "0.2"];
   ["2024-01-02"; "C"; "Strap"; "Wearables"; "South"; "3"; "0.1"; "0.3"]].

Definition decimal_frame : DataFrame :=
  Eval vm_compute in frame_of (a_file decimal_lines).

(* ================================================================== *)
(** * The notions the properties are stated with *)

Definition float_eq_dec (a b : float) : {a = b} + {a <> b}.
Proof.
  decide equality; auto using Z.eq_dec, Pos.eq_dec, Bool.bool_dec.
Defined.

Definition value_eq_dec (a b : value) : {a = b} + {a <> b}.
Proof.
  decide equality; auto using Z.eq_dec, string_dec, float_eq_dec.
Defined.

(** The keys of a grouping come one after the other in ascending order. *)
Definition ascending (a b : value) : Prop := value_compare a b = Lt.

(** A group whose sum is larger than the sum of another. *)
Definition sum_above (a b : value * value) : Prop :=
  amount_leb (snd a) (snd b) = false.

(** A frame with the eight columns and no record. *)
Definition empty_table (df : DataFrame) : Prop :=
  forall c, In c required_columns -> getitem df c = inl [].

Definition is_chart (e : element) : bool :=
  match e with
  | st_plotly_chart _ _ => true
  | _ => false
  end.

Definition is_metric (e : element) : bool :=
  match e with
  | st_metric _ _ => true
  | _ => false
  end.

Definition charts_shown (p : page) : nat :=
  List.length (filter is_chart (shown p)).

Definition metrics_shown (p : page) : nat :=
  List.length (filter is_metric (shown p)).

(** Two files that differ at most in the fields of the columns named [c]. *)
Definition same_outside (c : string) (f f' : csv) : Prop :=
  header f' = header f /\
  forall i, nth i (header f) "" <> c ->
            column_fields i (lines f') = column_fields i (lines f).

(** The position of the first column named [c]. *)
Fixpoint position (c : string) (names : list string) : option nat :=
  match names with
  | [] => None
  | name :: names' =>
      if String.eqb name c then Some 0%nat
      else option_map S (position c names')
  end.

(** The fields of the column [c] of a file. *)
Definition fields_of (f : csv) (c : string) : list string :=
  match position c (header f) with
  | Some i => column_fields i (lines f)
  | None => []
  end.

(** Every column of the frame has the same number of cells. *)
Definition rectangular (df : DataFrame) : Prop :=
  exists n, forall c s, getitem df c = inl s -> List.length s = n.

(** A column of amounts the loader lets through: integers above 0, or
    binary64 numbers none of which is at most 0. *)
Definition positive_amounts (s : Series) : Prop :=
  (exists zs, s = map Int zs /\ Forall (fun z => 0 < z) zs) \/
  (exists xs, xs <> [] /\ s = map Float xs /\
              Forall (fun x => fleb x (float_of_Z 0) = false) xs).

(** A quantity the loader lets through: none, or a number that is not
    below 1. *)
Definition quantity_passes (v : value) : Prop :=
  v = NaN \/
  (exists z, v = Int z /\ 1 <= z) \/
  (exists x, v = Float x /\ fltb x (float_of_Z 1) = false).

(** What the checks of [load_data] establish about the frame they let
    through. *)
Record validated (df : DataFrame) : Prop := {
  v_columns : forall c, In c required_columns -> In c (columns df);
  v_amounts : exists amounts,
      getitem df "total_amount" = inl amounts /\ positive_amounts amounts;
  v_orders : exists ids,
      getitem df "order_id" = inl ids /\ Forall (fun v => v <> NaN) ids;
  v_quantity : exists qs,
      getitem df "quantity" = inl qs /\ Forall quantity_passes qs;
  v_category : exists cats,
      getitem df "category" = inl (map Str cats) /\
      Forall (fun c => In c valid_categories) cats;
  v_region : exists regs,
      getitem df "region" = inl (map Str regs) /\
      Forall (fun r => In r valid_regions) regs;
  v_rectangular : rectangular df
}.

(** ** The order of the checks, as the specification words it

    Each check is looked at on its own: [violation] tells whether the
    check is violated on the file at the path and with which exception.
    The reader belongs to the check of the header: it refuses a file with
    no header and a file without the [date] column.  [load_in_order] goes
    through the checks in the order of the specification and fails with
    the first violation it meets. *)
Inductive check : Type :=
| FileExists
| HeaderColumns
| AmountPresent
| OrderIdPresent
| AmountPositive
| QuantityAtLeastOne
| CategoryInEnum
| RegionInEnum.

Definition validation_order : list check :=
  [FileExists; HeaderColumns; AmountPresent; OrderIdPresent;
   AmountPositive; QuantityAtLeastOne; CategoryInEnum; RegionInEnum].

Definition some_if (b : bool) (e : exn) : option exn :=
  if b then Some e else None.

(** A check on one column of the frame the reader gives. *)
Definition on_column (fs : filesystem) (filepath c : string)
  (k : Series -> option exn) : option exn :=
  match read_csv fs filepath ["date"] with
  | inl df =>
      match getitem df c with
      | inl s => k s
      | inr e => Some e
      end
  | inr _ => None
  end.

(** The values outside the set, by name. *)
Definition outside_enum (allowed : list string) (what : string) (s : Series)
  : option exn :=
  let bad := invalid_values allowed s in
  if nonempty bad
  then match strings_of bad with
       | inl names => Some (ValueError (what ++ join ", " names))
       | inr e => Some e
       end
  else None.

Definition violation (fs : filesystem) (filepath : string) (c : check)
  : option exn :=
  match c with
  | FileExists =>
      some_if (negb (path_exists fs filepath))
        (FileNotFoundError
           ("Data file not found at: " ++ filepath ++ ". "
            ++ "Please ensure sales-data.csv exists in the "
            ++ "ai-dev-workflow-tutorial/data/ directory."))
  | HeaderColumns =>
      match read_csv fs filepath ["date"] with
      | inl df =>
          let missing :=
            filter (fun col => negb (mem col (columns df))) required_columns in
          some_if (nonempty missing)
            (ValueError ("CSV is missing required columns: "
                         ++ join ", " missing))
      | inr e => Some e
      end
  | AmountPresent =>
      on_column fs filepath "total_amount" (fun s =>
        some_if (existsb isnull s)
          (ValueError "Data contains missing transaction amounts"))
  | OrderIdPresent =>
      on_column fs filepath "order_id" (fun s =>
        some_if (existsb isnull s)
          (ValueError "Data contains missing order IDs"))
  | AmountPositive =>
      on_column fs filepath "total_amount" (fun s =>
        match le_scalar s 0 with
        | inl m =>
            some_if (any m)
              (ValueError "Data contains non-positive transaction amounts")
        | inr e => Some e
        end)
  | QuantityAtLeastOne =>
      on_column fs filepath "quantity" (fun s =>
        match lt_scalar s 1 with
        | inl m =>
            some_if (any m)
              (ValueError "Data contains invalid quantities (must be >= 1)")
        | inr e => Some e
        end)
  | CategoryInEnum =>
      on_column fs filepath "category"
        (outside_enum valid_categories "Data contains invalid categories: ")
  | RegionInEnum =>
      on_column fs filepath "region"
        (outside_enum valid_regions "Data contains invalid regions: ")
  end.

Fixpoint first_violation (fs : filesystem) (filepath : string)
  (checks : list check) : option exn :=
  match checks with
  | [] => None
  | c :: later =>
      match violation fs filepath c with
      | Some e => Some e
      | None => first_violation fs filepath later
      end
  end.

Definition load_in_order (fs : filesystem) (filepath : string)
  : result DataFrame :=
  match first_violation fs filepath validation_order with
  | Some e => inr e
  | None => read_csv fs filepath ["date"]
  end.

(** The sum of the sums of a grouping of integers. *)
Definition total (g : list (value * value)) : Z := int_sum (map snd g).

(** The amounts of the records that have a date. *)
Fixpoint dated_amounts (dates : Series) (amounts : list Z) : list Z :=
  match dates, amounts with
  | d :: dates', z :: amounts' =>
      if isnull d then dated_amounts dates' amounts'
      else z :: dated_amounts dates' amounts'
  | _, _ => []
  end.

(** Every entry of the cache is a frame the loader let through. *)
Definition cache_ok (c : cache) : Prop :=
  forall key df, cache_lookup c key = Some df -> validated df.

(** The two outcomes of a call that returns or is stopped. *)
Definition succeeds {A B : Type} (r : A + B) : Prop :=
  match r with
  | inl _ => True
  | inr _ => False
  end.

Definition is_failure {A B : Type} (r : A + B) : Prop :=
  match r with
  | inl _ => False
  | inr _ => True
  end.

(* ================================================================== *)
(** * The notions of the further properties *)

(** The headings of the three [except] clauses of [load_data]. *)
Definition loading_error : string := "❌ **Data Loading Error**".
Definition validation_error : string := "❌ **Data Validation Error**".
Definition unexpected_error : string := "❌ **Unexpected Error**".

(** The clause that catches an exception, by its class. *)
Definition heading_of (e : exn) : string :=
  match e with
  | FileNotFoundError _ => loading_error
  | ValueError _ => validation_error
  | _ => unexpected_error
  end.

(** The message of the [FileNotFoundError] that [load_data] raises. *)
Definition not_found_message (filepath : string) : string :=
  "Data file not found at: " ++ filepath ++ ". "
  ++ "Please ensure sales-data.csv exists in the "
  ++ "ai-dev-workflow-tutorial/data/ directory.".


(** The integer amounts of the records under the key [k], added up. *)
Fixpoint amount_under (k : value) (keys : Series) (amounts : list Z) : Z :=
  match keys, amounts with
  | k' :: keys', z :: amounts' =>
      (if value_eqb k k' then z else 0) + amount_under k keys' amounts'
  | _, _ => 0
  end.

(** The binary64 amounts of the records under the key [k], in the order of
    the records. *)
Fixpoint floats_under (k : value) (keys : Series) (amounts : list float)
  : list float :=
  match keys, amounts with
  | k' :: keys', a :: amounts' =>
      if value_eqb k k' then a :: floats_under k keys' amounts'
      else floats_under k keys' amounts'
  | _, _ => []
  end.

(** The page of a run that was stopped by the loader: the title and the
    error box. *)
Definition error_page (p : page) : Prop :=
  exists heading e,
    shown p = [st_title "📊 ShopSmart Sales Dashboard"; st_error heading e].

(** The page of a run that went through: the title, the two cards, the
    trend chart and, in the lower row, the category chart. *)
Definition dashboard_page (p : page) : Prop :=
  exists sales orders trend by_category,
    shown p = [st_title "📊 ShopSmart Sales Dashboard";
               st_columns 2;
               st_metric "Total Sales" sales;
               st_metric "Total Orders" orders;
               st_plotly_chart trend true;
               st_columns 2;
               st_plotly_chart by_category true]
    /\ kind trend = Line /\ kind by_category = Bar.

(** A machine without files. *)
Definition no_file : filesystem := fun _ => None.

(** A machine with a directory at the path of the dashboard. *)
Definition a_directory : filesystem :=
  fun p => if String.eqb p DATA_FILE_PATH
           then Some (Unreadable
                        (OtherError "IsADirectoryError"
                           ("[Errno 21] Is a directory: '" ++ p ++ "'")))
           else None.

(** A file without the [unit_price] column and the [total_amount] column. *)
Definition short_header_file : csv :=
  {| header := ["date"; "order_id"; "product"; "category"; "region";
                "quantity"];
     lines := [["2024-01-01"; "A"; "Laptop"; "Electronics"; "North"; "1"]] |}.

(** One record, under the category and the region given. *)
Definition place_lines (category region : string) : list (list string) :=
  [["2024-01-01"; "A"; "Laptop"; category; region; "1"; "10"; "10"]].

(** Four records, three of them under categories that are not in the
    set, one of these twice. *)
Definition garden_lines : list (list string) :=
  [["2024-01-01"; "A"; "Hose"; "Garden"; "North"; "1"; "10"; "10"];
   ["2024-01-01"; "B"; "Speaker"; "Audio"; "North"; "1"; "5"; "5"];
   ["2024-01-02"; "C"; "Rake"; "Garden"; "South"; "1"; "7"; "7"];
   ["2024-01-02"; "D"; "Ball"; "Toys"; "South"; "1"; "3"; "3"]].

(** The frame [read_csv] makes of a file, before any check. *)
Definition read_frame (f : csv) : DataFrame :=
  match read_csv (only f) DATA_FILE_PATH ["date"] with
  | inl df => df
  | inr _ => []
  end.

(** The records of the example in another order. *)
Definition shuffled_lines : list (list string) :=
  [["2024-01-02"; "B"; "Speaker"; "Audio"; "South"; "1"; "7"; "7"];
   ["2024-01-01"; "A"; "Laptop"; "Electronics"; "North"; "1"; "10"; "10"];
   ["2024-01-01"; "A"; "Mouse"; "Accessories"; "North"; "1"; "5"; "5"]].

(** The records of the example under dates that are no days, the second
    one under no date. *)
Definition someday_lines : list (list string) :=
  [["someday"; "A"; "Laptop"; "Electronics"; "North"; "1"; "10"; "10"];
   [""; "A"; "Mouse"; "Accessories"; "North"; "1"; "5"; "5"];
   ["later"; "B"; "Speaker"; "Audio"; "South"; "1"; "7"; "7"]].

(* ================================================================== *)
(** * The order of the keys *)

Arguments value_compare : simpl never.
Arguments value_eqb : simpl never.
Arguments amount_leb : simpl never.
Arguments wrap64 : simpl never.

Lemma lex_compare_refl (a : list Z) : lex_compare a a = Eq.
Proof.
  induction a as [|u a IH]; simpl; [reflexivity|].
  now rewrite Z.compare_refl.
Qed.

Lemma lex_compare_eq (a b : list Z) : lex_compare a b = Eq <-> a = b.
Proof.
  split; [|intros ->; apply lex_compare_refl].
  revert b. induction a as [|u a IH]; intros [|v b]; simpl;
    try discriminate; auto.
  destruct (u ?= v) eqn:E; try discriminate.
  intros H. apply Z.compare_eq in E. f_equal; auto.
Qed.

Lemma lex_compare_antisym (a b : list Z) :
  lex_compare b a = CompOpp (lex_compare a b).
Proof.
  revert b. induction a as [|u a IH]; intros [|v b]; simpl; try reflexivity.
  rewrite (Z.compare_antisym u v).
  destruct (u ?= v); simpl; auto.
Qed.

Lemma lex_compare_lt_trans (a b c : list Z) :
  lex_compare a b = Lt -> lex_compare b c = Lt -> lex_compare a c = Lt.
Proof.
  revert b c. induction a as [|u a IH]; intros [|v b] [|w c]; simpl;
    try discriminate; auto.
  destruct (u ?= v) eqn:E1; try discriminate;
    destruct (v ?= w) eqn:E2; try discriminate; intros H1 H2.
  - apply Z.compare_eq in E1, E2. subst. rewrite Z.compare_refl. eauto.
  - apply Z.compare_eq in E1. subst. now rewrite E2.
  - apply Z.compare_eq in E2. subst. now rewrite E1.
  - rewrite Z.compare_lt_iff in E1, E2.
    assert (E : (u ?= w) = Lt) by (rewrite Z.compare_lt_iff; lia).
    now rewrite E.
Qed.

Lemma codes_inj (s t : string) : codes s = codes t -> s = t.
Proof.
  unfold codes. intros H.
  rewrite <- (string_of_list_ascii_of_string s),
          <- (string_of_list_ascii_of_string t).
  f_equal.
  revert H. generalize (list_ascii_of_string s) (list_ascii_of_string t).
  induction l as [|a l IH]; intros [|b l']; simpl; intros H;
    try discriminate; [reflexivity|].
  inversion H as [[Hab Hl]]. f_equal; [|now apply IH].
  apply N2Z.inj in Hab.
  rewrite <- (ascii_N_embedding a), <- (ascii_N_embedding b). now rewrite Hab.
Qed.

Lemma float_key_inj (x y : float) :
  float_key true x = float_key true y -> x = y.
Proof.
  destruct x as [[]|[]| |[] m e], y as [[]|[]| |[] m' e']; simpl; intros H;
    try discriminate; try reflexivity; inversion H; f_equal; lia.
Qed.

Lemma value_key_inj (a b : value) :
  value_key true a = value_key true b -> a = b.
Proof.
  destruct a, b; simpl; intros H; try discriminate; try reflexivity;
    inversion H; subst; try reflexivity.
  - f_equal. now apply float_key_inj.
  - f_equal. now apply codes_inj.
Qed.

Lemma value_compare_eq (a b : value) : value_compare a b = Eq <-> a = b.
Proof.
  unfold value_compare. rewrite lex_compare_eq. split.
  - apply value_key_inj.
  - now intros ->.
Qed.

Lemma value_compare_refl (a : value) : value_compare a a = Eq.
Proof. now apply value_compare_eq. Qed.

Lemma value_compare_antisym (a b : value) :
  value_compare b a = CompOpp (value_compare a b).
Proof. apply lex_compare_antisym. Qed.

Lemma value_compare_lt_trans (a b c : value) :
  value_compare a b = Lt -> value_compare b c = Lt -> value_compare a c = Lt.
Proof. apply lex_compare_lt_trans. Qed.

Lemma value_compare_gt_lt (a b : value) :
  value_compare a b = Gt <-> value_compare b a = Lt.
Proof.
  rewrite (value_compare_antisym a b).
  destruct (value_compare a b); simpl; split; congruence.
Qed.

Lemma value_eqb_eq (a b : value) : value_eqb a b = true <-> a = b.
Proof.
  unfold value_eqb. rewrite <- value_compare_eq.
  destruct (value_compare a b); split; congruence.
Qed.

Lemma value_eqb_refl (a : value) : value_eqb a a = true.
Proof. now apply value_eqb_eq. Qed.

Lemma value_eqb_neq (a b : value) : value_eqb a b = false <-> a <> b.
Proof.
  rewrite <- value_eqb_eq. destruct (value_eqb a b); split; congruence.
Qed.

Lemma amount_leb_total (a b : value) :
  amount_leb a b = false -> amount_leb b a = true.
Proof.
  unfold amount_leb.
  rewrite (lex_compare_antisym (value_key false a) (value_key false b)).
  destruct (lex_compare (value_key false a) (value_key false b));
    simpl; congruence.
Qed.

Lemma amount_leb_ints (a b : Z) : amount_leb (Int a) (Int b) = (a <=? b).
Proof.
  unfold amount_leb. simpl. unfold Z.leb.
  destruct (a ?= b); reflexivity.
Qed.

(* ================================================================== *)
(** * The monad and the column operations *)

Lemma bind_inl {A B : Type} (c : result A) (k : A -> result B) (b : B) :
  bind c k = inl b -> exists a, c = inl a /\ k a = inl b.
Proof. destruct c as [a|e]; simpl; [eauto|discriminate]. Qed.

Lemma raise_if_inl (cond : bool) (e : exn) (u : unit) :
  raise_if cond e = inl u -> cond = false.
Proof. destruct cond; simpl; [discriminate|reflexivity]. Qed.

Lemma mem_In (c : string) (l : list string) : mem c l = true <-> In c l.
Proof.
  unfold mem. rewrite existsb_exists. split.
  - intros [x [Hx Heq]]. apply String.eqb_eq in Heq. now subst.
  - intros H. exists c. split; [assumption|apply String.eqb_refl].
Qed.

Lemma any_false (m : list bool) : any m = false <-> Forall (fun b => b = false) m.
Proof.
  unfold any. induction m as [|b m IH]; simpl.
  - split; [constructor|reflexivity].
  - destruct b; simpl.
    + split; [discriminate|]. intros H. inversion H. discriminate.
    + rewrite IH. split; [now constructor|]. intros H. now inversion H.
Qed.

Lemma any_isnull_false (s : Series) :
  any (map isnull s) = false <-> Forall (fun v => v <> NaN) s.
Proof.
  rewrite any_false. induction s as [|v s IH]; simpl.
  - split; constructor.
  - split; intros H; inversion H; subst; constructor;
      try (now apply IH); destruct v; simpl in *; congruence.
Qed.

Lemma select_map (p : value -> bool) (s : Series) :
  select (map p s) s = filter p s.
Proof.
  induction s as [|v s IH]; simpl; [reflexivity|].
  rewrite IH. reflexivity.
Qed.

Lemma In_unique (x : value) (s : Series) : In x (unique s) <-> In x s.
Proof.
  induction s as [|v s IH]; simpl; [tauto|].
  rewrite filter_In, IH, negb_true_iff, value_eqb_neq.
  destruct (value_eq_dec v x); intuition congruence.
Qed.

Lemma NoDup_unique (s : Series) : NoDup (unique s).
Proof.
  induction s as [|v s IH]; simpl; constructor.
  - rewrite filter_In, negb_true_iff, value_eqb_neq. tauto.
  - now apply NoDup_filter.
Qed.

Lemma length_unique (s : Series) : (List.length (unique s) <= List.length s)%nat.
Proof.
  induction s as [|v s IH]; simpl; [lia|].
  pose proof (filter_length_le (fun w => negb (value_eqb v w)) (unique s)).
  lia.
Qed.

Lemma unique_full (s : Series) :
  List.length (unique s) = List.length s <-> NoDup s.
Proof.
  split; intros H.
  - apply (NoDup_incl_NoDup (NoDup_unique s)); [lia|].
    intros x Hx. now apply In_unique.
  - apply Nat.le_antisymm; [apply length_unique|].
    apply NoDup_incl_length; [assumption|].
    intros x Hx. now apply In_unique.
Qed.

Lemma unique_nil (s : Series) : unique s = [] -> s = [].
Proof. destruct s; simpl; [reflexivity|discriminate]. Qed.

Lemma filter_notnull_id (s : Series) :
  Forall (fun v => v <> NaN) s -> filter notnull s = s.
Proof.
  induction 1 as [|v s Hv _ IH]; simpl; [reflexivity|].
  destruct v; simpl; try congruence.
Qed.

Lemma ints_not_null (zs : list Z) : Forall (fun v => v <> NaN) (map Int zs).
Proof.
  apply Forall_forall. intros v Hv. apply in_map_iff in Hv.
  destruct Hv as [z [<- _]]. discriminate.
Qed.

Lemma floats_not_null (xs : list float) :
  Forall (fun v => v <> NaN) (map Float xs).
Proof.
  apply Forall_forall. intros v Hv. apply in_map_iff in Hv.
  destruct Hv as [z [<- _]]. discriminate.
Qed.

Lemma map_Int_inj (a b : list Z) : map Int a = map Int b -> a = b.
Proof.
  revert b. induction a as [|z a IH]; intros [|z' b]; simpl; intros E;
    try discriminate; [reflexivity|].
  inversion E; subst. f_equal. now apply IH.
Qed.

Lemma map_Float_inj (a b : list float) : map Float a = map Float b -> a = b.
Proof.
  revert b. induction a as [|z a IH]; intros [|z' b]; simpl; intros E;
    try discriminate; [reflexivity|].
  inversion E; subst. f_equal. now apply IH.
Qed.

Lemma ints_or_floats (zs : list Z) (xs : list float) :
  map Int zs = map Float xs -> zs = [] /\ xs = [].
Proof. destruct zs, xs; simpl; intros H; try discriminate. now split. Qed.

Lemma dtype_of_ints (zs : list Z) : dtype_of (map Int zs) = int64.
Proof.
  unfold dtype_of.
  assert (H : forallb is_int (map Int zs) = true).
  { apply forallb_forall. intros v Hv. apply in_map_iff in Hv.
    now destruct Hv as [z [<- _]]. }
  now rewrite H.
Qed.

Lemma dtype_of_floats (x : float) (xs : list float) :
  dtype_of (map Float (x :: xs)) = float64.
Proof.
  unfold dtype_of. simpl.
  assert (H : forallb is_number (map Float xs) = true).
  { apply forallb_forall. intros v Hv. apply in_map_iff in Hv.
    now destruct Hv as [z [<- _]]. }
  now rewrite H.
Qed.

Lemma int_sum_ints (zs : list Z) : int_sum (map Int zs) = fold_right Z.add 0 zs.
Proof.
  induction zs as [|z zs IH]; simpl; [reflexivity|]. now rewrite IH.
Qed.

Lemma to_float_floats (xs : list float) : map to_float (map Float xs) = xs.
Proof.
  induction xs as [|x xs IH]; simpl; [reflexivity|]. now rewrite IH.
Qed.

Lemma wrap64_small (z : Z) : - 2 ^ 63 <= z < 2 ^ 63 -> wrap64 z = z.
Proof.
  intros H. unfold wrap64. rewrite Z.mod_small; lia.
Qed.

Lemma series_sum_ints (zs : list Z) :
  series_sum (map Int zs) = inl (Int (wrap64 (fold_right Z.add 0 zs))).
Proof.
  unfold series_sum. now rewrite dtype_of_ints, int_sum_ints.
Qed.

Lemma series_sum_floats (xs : list float) :
  xs <> [] -> series_sum (map Float xs) = inl (Float (float_sum xs)).
Proof.
  destruct xs as [|x xs]; [congruence|]. intros _.
  unfold series_sum. now rewrite dtype_of_floats, to_float_floats.
Qed.

Lemma le_scalar_ints (zs : list Z) (m : list bool) :
  le_scalar (map Int zs) 0 = inl m -> any m = false ->
  Forall (fun z => 0 < z) zs.
Proof.
  revert m. induction zs as [|z zs IH]; simpl; intros m Hm Hany;
    [constructor|].
  destruct (le_scalar (map Int zs) 0) as [m'|] eqn:E; simpl in Hm;
    [|discriminate].
  inversion Hm; subst. simpl in Hany.
  apply orb_false_iff in Hany. destruct Hany as [Hz Hany].
  constructor; [lia|]. eapply IH; eauto.
Qed.

Lemma le_scalar_floats (xs : list float) (m : list bool) :
  le_scalar (map Float xs) 0 = inl m -> any m = false ->
  Forall (fun x => fleb x (float_of_Z 0) = false) xs.
Proof.
  revert m. induction xs as [|x xs IH]; simpl; intros m Hm Hany;
    [constructor|].
  destruct (le_scalar (map Float xs) 0) as [m'|] eqn:E; simpl in Hm;
    [|discriminate].
  inversion Hm; subst. simpl in Hany.
  apply orb_false_iff in Hany. destruct Hany as [Hz Hany].
  constructor; [assumption|]. eapply IH; eauto.
Qed.

Lemma present_floats (s : Series) :
  Forall (fun v => v = NaN \/ exists x, v = Float x) s ->
  Forall (fun v => v <> NaN) s ->
  exists xs, s = map Float xs.
Proof.
  induction 1 as [|v s Hv _ IH]; intros Hnn.
  - now exists [].
  - inversion Hnn as [|? ? Hn Hs]; subst.
    destruct (IH Hs) as [xs ->].
    destruct Hv as [->|[x ->]]; [congruence|].
    now exists (x :: xs).
Qed.

(** A column of one kind that passes the two checks of the amounts. *)
Lemma le_scalar_positive (s : Series) (m : list bool) :
  (exists zs, s = map Int zs) \/
  Forall (fun v => v = NaN \/ exists x, v = Float x) s \/
  Forall (fun v => v = NaN \/ exists t, v = Str t) s ->
  Forall (fun v => v <> NaN) s ->
  le_scalar s 0 = inl m -> any m = false ->
  positive_amounts s.
Proof.
  intros [[zs ->]|[Hf|Ht]] Hnn Hm Hany.
  - left. exists zs. split; [reflexivity|]. eapply le_scalar_ints; eauto.
  - destruct (present_floats s Hf Hnn) as [xs ->].
    destruct xs as [|x xs].
    + left. exists []. split; [reflexivity|constructor].
    + right. exists (x :: xs). split; [discriminate|].
      split; [reflexivity|]. eapply le_scalar_floats; eauto.
  - destruct s as [|v s].
    + left. exists []. split; [reflexivity|constructor].
    + exfalso. inversion Ht as [|? ? Hv _]; subst.
      inversion Hnn as [|? ? Hn _]; subst.
      destruct Hv as [->|[t ->]]; [congruence|]. simpl in Hm. discriminate.
Qed.

Lemma lt_scalar_at_least (s : Series) (m : list bool) :
  lt_scalar s 1 = inl m -> any m = false -> Forall quantity_passes s.
Proof.
  revert m. induction s as [|v s IH]; simpl; intros m Hm Hany.
  - constructor.
  - destruct (lt_scalar s 1) as [m'|] eqn:E.
    + destruct v as [|z|x|t|d]; simpl in Hm; try discriminate;
        inversion Hm; subst; simpl in Hany.
      * constructor; [now left|]. eapply IH; eauto.
      * apply orb_false_iff in Hany. destruct Hany as [Hz Hany].
        constructor; [right; left; exists z; split; [reflexivity|lia]|].
        eapply IH; eauto.
      * apply orb_false_iff in Hany. destruct Hany as [Hz Hany].
        constructor; [right; right; exists x; now split|].
        eapply IH; eauto.
    + destruct v; simpl in Hm; discriminate.
Qed.

Lemma invalid_values_nil (allowed : list string) (s : Series) :
  invalid_values allowed s = [] ->
  exists names, s = map Str names /\ Forall (fun c => In c allowed) names.
Proof.
  unfold invalid_values. rewrite select_map. intros H.
  apply unique_nil in H.
  induction s as [|v s IH]; simpl in H.
  - exists []. split; [reflexivity|constructor].
  - destruct (isin allowed v) eqn:E; simpl in H; [|discriminate].
    destruct (IH H) as [names [-> Hall]].
    destruct v as [|z|x|t|d]; simpl in E; try discriminate.
    exists (t :: names). split; [reflexivity|].
    constructor; [now apply mem_In|assumption].
Qed.

(* ================================================================== *)
(** * The frame [read_csv] builds *)

Lemma infer_column_length (fields : list string) :
  List.length (infer_column fields) = List.length fields.
Proof.
  unfold infer_column.
  destruct (forallb _ fields); [apply length_map|].
  destruct (forallb _ fields); apply length_map.
Qed.

Lemma date_column_length (fields : list string) :
  List.length (date_column fields) = List.length fields.
Proof.
  unfold date_column.
  destruct (forallb _ fields); apply length_map.
Qed.

(** The cells of a column the reader infers are of one kind. *)
Lemma infer_column_kinds (fields : list string) :
  (exists zs, infer_column fields = map Int zs) \/
  Forall (fun v => v = NaN \/ exists x, v = Float x) (infer_column fields) \/
  Forall (fun v => v = NaN \/ exists t, v = Str t) (infer_column fields).
Proof.
  unfold infer_column.
  destruct (forallb (fun f => is_some (int64_literal f)) fields) eqn:E1.
  - left.
    exists (map (fun f => match int64_literal f with
                          | Some z => z
                          | None => 0
                          end) fields).
    rewrite map_map. apply map_ext_in. intros f Hf.
    rewrite forallb_forall in E1. specialize (E1 f Hf).
    now destruct (int64_literal f).
  - destruct (forallb (fun f => is_na f || is_some (parse_float f)) fields);
      right; [left|right];
      apply Forall_forall; intros v Hv; apply in_map_iff in Hv;
      destruct Hv as [f [<- _]]; destruct (is_na f); eauto.
    destruct (parse_float f); eauto.
Qed.

Lemma read_columns_names (pd : list string) (i : nat) (names : list string)
  (ls : list (list string)) :
  columns (read_columns pd i names ls) = names.
Proof.
  revert i. induction names as [|name names IH]; intros i; simpl;
    [reflexivity|].
  unfold columns in IH. now rewrite IH.
Qed.

Lemma getitem_read_columns (pd : list string) (i : nat) (names : list string)
  (ls : list (list string)) (c : string) :
  getitem (read_columns pd i names ls) c =
  match position c names with
  | Some j =>
      inl (if mem c pd then date_column (column_fields (i + j) ls)
           else infer_column (column_fields (i + j) ls))
  | None => inr (KeyError c)
  end.
Proof.
  revert i. induction names as [|name names IH]; intros i; simpl;
    [reflexivity|].
  destruct (String.eqb name c) eqn:E.
  - apply String.eqb_eq in E. subst. now rewrite Nat.add_0_r.
  - rewrite IH. destruct (position c names) as [j|]; simpl;
      [|reflexivity].
    now rewrite Nat.add_succ_r.
Qed.

Lemma read_columns_rectangular (pd : list string) (i : nat)
  (names : list string) (ls : list (list string)) (c : string) (s : Series) :
  getitem (read_columns pd i names ls) c = inl s ->
  List.length s = List.length ls.
Proof.
  rewrite getitem_read_columns.
  destruct (position c names) as [j|]; [|discriminate].
  intros H. inversion H; subst.
  destruct (mem c pd);
    rewrite ?date_column_length, ?infer_column_length;
    apply length_map.
Qed.

Lemma getitem_In_columns (df : DataFrame) (c : string) (s : Series) :
  getitem df c = inl s -> In c (columns df).
Proof.
  induction df as [|[name t] df IH]; simpl; [discriminate|].
  destruct (String.eqb name c) eqn:E.
  - apply String.eqb_eq in E. now left.
  - intros H. right. now apply IH.
Qed.

Lemma In_columns_getitem (df : DataFrame) (c : string) :
  In c (columns df) -> exists s, getitem df c = inl s.
Proof.
  induction df as [|[name t] df IH]; simpl; [tauto|].
  destruct (String.eqb name c) eqn:E; [intros _; now exists t|].
  intros [H|H]; [|now apply IH].
  apply String.eqb_neq in E. congruence.
Qed.

Lemma read_csv_inl (fs : filesystem) (filepath : string) (pd : list string)
  (df : DataFrame) :
  read_csv fs filepath pd = inl df ->
  exists f, fs filepath = Some (File f) /\
            df = read_columns pd 0 (header f) (lines f) /\
            header f <> [] /\
            forall c, In c pd -> In c (header f).
Proof.
  unfold read_csv. destruct (fs filepath) as [[f|e]|]; try discriminate.
  intros H. exists f.
  apply bind_inl in H. destruct H as [[] [H1 H]]. apply raise_if_inl in H1.
  apply bind_inl in H. destruct H as [[] [H2 H]]. apply raise_if_inl in H2.
  inversion H; subst. repeat split.
  - destruct (header f); [discriminate|congruence].
  - intros c Hc.
    destruct (filter _ pd) as [|m ms] eqn:E; [|discriminate].
    destruct (mem c (header f)) eqn:Hm; [now apply mem_In|].
    assert (Hin : In c (filter (fun c => negb (mem c (header f))) pd)).
    { apply filter_In. split; [assumption|]. now rewrite Hm. }
    rewrite E in Hin. destruct Hin.
Qed.

Lemma read_csv_rectangular (fs : filesystem) (filepath : string)
  (pd : list string) (df : DataFrame) :
  read_csv fs filepath pd = inl df -> rectangular df.
Proof.
  intros H. apply read_csv_inl in H. destruct H as [f [_ [-> _]]].
  exists (List.length (lines f)). intros c s.
  apply read_columns_rectangular.
Qed.

Lemma getitem_fields (fs : filesystem) (filepath : string) (f : csv)
  (df : DataFrame) (c : string) (s : Series) :
  fs filepath = Some (File f) ->
  read_csv fs filepath ["date"] = inl df ->
  c <> "date" ->
  getitem df c = inl s ->
  s = infer_column (fields_of f c).
Proof.
  intros Hf Hread Hc Hs. apply read_csv_inl in Hread.
  destruct Hread as [f0 [Hf0 [-> _]]].
  rewrite Hf in Hf0. inversion Hf0; subst f0.
  rewrite getitem_read_columns in Hs. unfold fields_of.
  destruct (position c (header f)); [|discriminate].
  assert (Hm : mem c ["date"] = false).
  { destruct (mem c ["date"]) eqn:E; [|reflexivity].
    apply mem_In in E. destruct E as [E|[]]. congruence. }
  rewrite Hm in Hs. now inversion Hs.
Qed.

(* ================================================================== *)
(** * What a successful load establishes *)

Lemma filter_nil_all {A : Type} (p : A -> bool) (l : list A) :
  filter p l = [] -> forall a, In a l -> p a = false.
Proof.
  intros H a Ha. destruct (p a) eqn:E; [|reflexivity].
  assert (Hin : In a (filter p l)) by (apply filter_In; tauto).
  rewrite H in Hin. destruct Hin.
Qed.

Lemma zero_ltb_length {A : Type} (l : list A) :
  (0 <? List.length l)%nat = false -> l = [].
Proof. destruct l; simpl; [reflexivity|discriminate]. Qed.

Lemma names_check_inl (l : Series) (msg : string) (u : unit) :
  (if (0 <? List.length l)%nat
   then names <- strings_of l ;; raise (ValueError (msg ++ join ", " names))
   else ret tt) = inl u -> l = [].
Proof.
  destruct (0 <? List.length l)%nat eqn:E.
  - destruct (strings_of l); simpl; discriminate.
  - intros _. now apply zero_ltb_length.
Qed.

Lemma load_data_try_inl (fs : filesystem) (filepath : string) (df : DataFrame) :
  load_data_try fs filepath = inl df ->
  read_csv fs filepath ["date"] = inl df /\ validated df.
Proof.
  unfold load_data_try. intros H.
  apply bind_inl in H. destruct H as [[] [_ H]].
  apply bind_inl in H. destruct H as [df0 [Hread H]].
  apply bind_inl in H. destruct H as [[] [Hcols H]]. apply raise_if_inl in Hcols.
  apply bind_inl in H. destruct H as [amt [Hamt H]].
  apply bind_inl in H. destruct H as [[] [Hnull H]]. apply raise_if_inl in Hnull.
  apply bind_inl in H. destruct H as [ids [Hids H]].
  apply bind_inl in H. destruct H as [[] [Hnull' H]]. apply raise_if_inl in Hnull'.
  apply bind_inl in H. destruct H as [amt' [Hamt' H]].
  apply bind_inl in H. destruct H as [m [Hm H]].
  apply bind_inl in H. destruct H as [[] [Hpos H]]. apply raise_if_inl in Hpos.
  apply bind_inl in H. destruct H as [qs [Hqs H]].
  apply bind_inl in H. destruct H as [m' [Hm' H]].
  apply bind_inl in H. destruct H as [[] [Hq H]]. apply raise_if_inl in Hq.
  apply bind_inl in H. destruct H as [cat [Hcat H]].
  apply bind_inl in H. destruct H as [[] [Hc H]]. apply names_check_inl in Hc.
  apply bind_inl in H. destruct H as [reg [Hreg H]].
  apply bind_inl in H. destruct H as [[] [Hr H]]. apply names_check_inl in Hr.
  inversion H; subst df0. clear H.
  rewrite Hamt in Hamt'. inversion Hamt'; subst amt'. clear Hamt'.
  split; [assumption|].
  apply any_isnull_false in Hnull, Hnull'.
  assert (Hkind : positive_amounts amt).
  { destruct (read_csv_inl _ _ _ _ Hread) as [f [Hf _]].
    apply (le_scalar_positive amt m); try assumption.
    assert (Hne : "total_amount" <> "date") by discriminate.
    rewrite (getitem_fields _ _ _ _ _ _ Hf Hread Hne Hamt).
    apply infer_column_kinds. }
  apply invalid_values_nil in Hc, Hr.
  destruct Hc as [cats [-> Hcats]]. destruct Hr as [regs [-> Hregs]].
  constructor; eauto using lt_scalar_at_least, read_csv_rectangular.
  intros c Hc.
  destruct (filter _ required_columns) eqn:E; [|discriminate].
  apply (filter_nil_all _ _ E) in Hc.
  apply negb_false_iff in Hc. now apply mem_In.
Qed.

Lemma load_data_inl (fs : filesystem) (filepath : string) (df : DataFrame) :
  load_data fs filepath = inl df <-> load_data_try fs filepath = inl df.
Proof.
  unfold load_data.
  destruct (load_data_try fs filepath) as [d|[]]; split; congruence.
Qed.

Lemma load_data_validated (fs : filesystem) (filepath : string)
  (df : DataFrame) :
  load_data fs filepath = inl df -> validated df.
Proof.
  intros H. apply load_data_inl in H. now apply load_data_try_inl in H.
Qed.

(* ================================================================== *)
(** * The KPI cards *)

Lemma calculate_kpis_validated (df : DataFrame) :
  validated df ->
  exists amounts ids sales,
    getitem df "total_amount" = inl amounts /\
    positive_amounts amounts /\
    getitem df "order_id" = inl ids /\
    Forall (fun v => v <> NaN) ids /\
    series_sum amounts = inl sales /\
    (sales = Int (wrap64 (int_sum amounts))
     \/ sales = Float (float_sum (map to_float amounts))) /\
    calculate_kpis df =
      inl {| total_sales := sales;
             total_orders := List.length (unique ids) |}.
Proof.
  intros V.
  destruct (v_amounts df V) as [amounts [Ha Hpos]].
  destruct (v_orders df V) as [ids [Hi Hnn]].
  assert (Hs : exists sales,
             series_sum amounts = inl sales /\
             (sales = Int (wrap64 (int_sum amounts))
              \/ sales = Float (float_sum (map to_float amounts)))).
  { destruct Hpos as [[zs [-> _]]|[xs [Hne [-> _]]]].
    - eexists. split; [apply series_sum_ints|].
      left. now rewrite int_sum_ints.
    - eexists. split; [now apply series_sum_floats|].
      right. now rewrite to_float_floats. }
  destruct Hs as [sales [Hs Hkind]].
  exists amounts, ids, sales. repeat split; try assumption.
  unfold calculate_kpis. rewrite Ha. simpl.
  rewrite Hs. simpl. rewrite Hi. simpl.
  unfold nunique. now rewrite filter_notnull_id.
Qed.


(** The example of the specification: three records, two orders. *)
Example calculate_kpis_example :
  calculate_kpis example_frame
  = inl {| total_sales := Int 22; total_orders := 2 |}
  /\ daily_sales example_frame
     = inl [(Timestamp 20240101, Int 15); (Timestamp 20240102, Int 7)].
Proof. split; reflexivity. Qed.

(** C6.  On the table a load returns, [total_orders] is at most the number
    of records (the number of data lines of the file), and it is that
    number exactly when every order id of the table is the id of one
    record only. *)
Theorem total_orders_at_most_records
  (fs : filesystem) (filepath : string) (df : DataFrame) :
  load_data fs filepath = inl df ->
  exists f ids k,
    fs filepath = Some (File f) /\
    getitem df "order_id" = inl ids /\
    List.length ids = List.length (lines f) /\
    calculate_kpis df = inl k /\
    (total_orders k <= List.length ids)%nat /\
    (total_orders k = List.length ids <->
     forall v, In v ids -> count_occ value_eq_dec ids v = 1%nat).
Proof.
  intros H. apply load_data_inl in H. apply load_data_try_inl in H.
  destruct H as [Hread V].
  destruct (calculate_kpis_validated df V)
    as [amounts [ids [sales [_ [_ [Hi [_ [_ [_ Hk]]]]]]]]].
  apply read_csv_inl in Hread. destruct Hread as [f [Hf [Hdf _]]].
  exists f, ids, {| total_sales := sales;
                    total_orders := List.length (unique ids) |}.
  repeat split; try assumption; simpl.
  - subst df. now apply read_columns_rectangular in Hi.
  - apply length_unique.
  - intros E. apply unique_full in E. now apply NoDup_count_occ'.
  - intros E. apply unique_full. now apply (NoDup_count_occ' value_eq_dec).
Qed.

(* ================================================================== *)
(** * The table without records *)

Lemma position_In (c : string) (names : list string) :
  In c names -> exists j, position c names = Some j.
Proof.
  induction names as [|name names IH]; simpl; [tauto|].
  destruct (String.eqb name c) eqn:E; [eauto|].
  intros [H|H].
  - apply String.eqb_neq in E. congruence.
  - destruct (IH H) as [j ->]. simpl. eauto.
Qed.

Lemma getitem_header_only (pd : list string) (names : list string)
  (c : string) :
  In c names -> getitem (read_columns pd 0 names []) c = inl [].
Proof.
  intros H. rewrite getitem_read_columns.
  destruct (position_In c names H) as [j ->].
  now destruct (mem c pd).
Qed.

Lemma filter_all_false {A : Type} (p : A -> bool) (l : list A) :
  (forall a, In a l -> p a = false) -> filter p l = [].
Proof.
  induction l as [|a l IH]; simpl; intros H; [reflexivity|].
  rewrite (H a (or_introl eq_refl)). apply IH. auto.
Qed.

Lemma read_csv_ok (fs : filesystem) (filepath : string) (pd : list string)
  (f : csv) :
  fs filepath = Some (File f) -> header f <> [] ->
  (forall c, In c pd -> In c (header f)) ->
  read_csv fs filepath pd = inl (read_columns pd 0 (header f) (lines f)).
Proof.
  intros Hf Hh Hpd. unfold read_csv. rewrite Hf.
  destruct (header f) as [|h0 hs] eqn:E; [congruence|].
  cbn [bind raise_if ret raise nonempty negb].
  rewrite (filter_all_false _ pd).
  2:{ intros c Hc. apply negb_false_iff, mem_In. auto. }
  reflexivity.
Qed.

Lemma load_data_try_header_only (fs : filesystem) (filepath : string)
  (f : csv) :
  fs filepath = Some (File f) -> lines f = [] ->
  (forall c, In c required_columns -> In c (header f)) ->
  load_data_try fs filepath = inl (read_columns ["date"] 0 (header f) []).
Proof.
  intros Hf Hl Hcols.
  assert (Hget : forall c, In c required_columns ->
            getitem (read_columns ["date"] 0 (header f) []) c = inl []).
  { intros c Hc. apply getitem_header_only. auto. }
  unfold load_data_try, path_exists. rewrite Hf.
  rewrite (read_csv_ok fs filepath ["date"] f Hf).
  2:{ intros E. rewrite E in Hcols. apply (Hcols "date"). simpl. tauto. }
  2:{ intros c [<-|[]]. apply Hcols. simpl. tauto. }
  rewrite Hl. cbn [bind raise_if ret raise negb].
  rewrite read_columns_names.
  rewrite (filter_all_false _ required_columns).
  2:{ intros c Hc. apply negb_false_iff, mem_In. auto. }
  cbn [bind raise_if ret raise negb nonempty].
  rewrite !Hget by (simpl; tauto).
  reflexivity.
Qed.

Lemma sort_values_desc_nil : sort_values_desc [] = [].
Proof.
  apply Permutation_nil. symmetry. apply sort_values_desc_perm.
Qed.

(** C3.  On a frame with the eight columns and no record,
    [calculate_kpis] returns 0 sales and 0 orders, the sums by date and by
    category are the empty sequence, and the two chart builders return
    their figure, with no point; and a file that has the eight columns in
    its header and no data line is loaded, without a failure, into such a
    frame. *)
Theorem empty_table_no_error :
  (forall df, empty_table df ->
     calculate_kpis df = inl {| total_sales := Int 0; total_orders := 0 |} /\
     daily_sales df = inl [] /\
     category_sales df = inl [] /\
     (exists fig, create_sales_trend_chart df = inl fig /\
                  x fig = [] /\ y fig = []) /\
     (exists fig, create_category_chart df = inl fig /\
                  x fig = [] /\ y fig = [])) /\
  (forall fs filepath f,
     fs filepath = Some (File f) -> lines f = [] ->
     (forall c, In c required_columns -> In c (header f)) ->
     exists df, load_data fs filepath = inl df /\ empty_table df).
Proof.
  split.
  - intros df E.
    assert (Ha : getitem df "total_amount" = inl []) by (apply E; simpl; tauto).
    assert (Ho : getitem df "order_id" = inl []) by (apply E; simpl; tauto).
    assert (Hd : getitem df "date" = inl []) by (apply E; simpl; tauto).
    assert (Hc : getitem df "category" = inl []) by (apply E; simpl; tauto).
    assert (Hk : daily_sales df = inl []).
    { unfold daily_sales. now rewrite Hd, Ha. }
    assert (Hs : category_sales df = inl []).
    { unfold category_sales. rewrite Hc, Ha. simpl.
      now rewrite sort_values_desc_nil. }
    repeat split; try assumption.
    + unfold calculate_kpis. now rewrite Ha, Ho.
    + unfold create_sales_trend_chart. rewrite Hk. simpl.
      eexists. split; [reflexivity|]. split; reflexivity.
    + unfold create_category_chart. rewrite Hs. simpl.
      eexists. split; [reflexivity|]. split; reflexivity.
  - intros fs filepath f Hf Hl Hcols.
    exists (read_columns ["date"] 0 (header f) []). split.
    + apply load_data_inl. now apply load_data_try_header_only.
    + intros c Hc. apply getitem_header_only. auto.
Qed.

(* ================================================================== *)
(** * Grouping: the keys *)

Lemma insert_key_In (k k' : value) (ks : list value) :
  In k (insert_key k' ks) <-> k = k' \/ In k ks.
Proof.
  induction ks as [|k0 ks IH]; simpl.
  - intuition.
  - destruct (value_compare k' k0) eqn:E; simpl.
    + apply value_compare_eq in E. subst. intuition.
    + intuition.
    + rewrite IH. intuition.
Qed.

Lemma insert_key_sorted (k : value) (ks : list value) :
  StronglySorted ascending ks -> StronglySorted ascending (insert_key k ks).
Proof.
  induction 1 as [|k' ks Hs IH Hall]; simpl.
  - repeat constructor.
  - destruct (value_compare k k') eqn:E.
    + constructor; assumption.
    + constructor; [now constructor|].
      constructor; [exact E|].
      eapply Forall_impl; [|exact Hall].
      intros y Hy. unfold ascending in *.
      eapply value_compare_lt_trans; eauto.
    + constructor; [assumption|].
      apply Forall_forall. intros y Hy. apply insert_key_In in Hy.
      destruct Hy as [->|Hy].
      * now apply value_compare_gt_lt.
      * rewrite Forall_forall in Hall. now apply Hall.
Qed.

Lemma group_keys_sorted (keys : Series) :
  StronglySorted ascending (group_keys keys).
Proof.
  induction keys as [|k keys IH]; simpl; [constructor|].
  destruct (isnull k); [assumption|]. now apply insert_key_sorted.
Qed.

Lemma group_keys_In (k : value) (keys : Series) :
  In k (group_keys keys) <-> In k keys /\ k <> NaN.
Proof.
  induction keys as [|k0 keys IH]; simpl; [tauto|].
  destruct k0; simpl; rewrite ?insert_key_In, IH; intuition congruence.
Qed.

Lemma ascending_NoDup (l : Series) : StronglySorted ascending l -> NoDup l.
Proof.
  induction 1 as [|a l Hl IH Ha]; constructor; [|assumption].
  intros Hin. rewrite Forall_forall in Ha. specialize (Ha a Hin).
  unfold ascending in Ha. rewrite value_compare_refl in Ha. discriminate.
Qed.




(* ================================================================== *)
(** * Grouping: the sums *)

Lemma group_totals_int (records : list (value * value)) (ks : list value) :
  group_totals int64 records ks
  = inl (map (fun k => (k, Int (wrap64 (int_sum (cells_under k records))))) ks).
Proof.
  induction ks as [|k ks IH]; simpl; [reflexivity|]. now rewrite IH.
Qed.

Lemma group_totals_float (records : list (value * value)) (ks : list value) :
  group_totals float64 records ks
  = inl (map (fun k =>
                (k, Float (group_sum
                             (map to_float
                                (filter notnull (cells_under k records))))))
           ks).
Proof.
  induction ks as [|k ks IH]; simpl; [reflexivity|]. now rewrite IH.
Qed.

Lemma map_fst_combine {A B : Type} (l : list A) (l' : list B) :
  List.length l = List.length l' -> map fst (combine l l') = l.
Proof.
  revert l'. induction l as [|a l IH]; intros [|b l']; simpl; intros H;
    try discriminate; [reflexivity|].
  f_equal. apply IH. lia.
Qed.

Lemma map_snd_combine {A B : Type} (l : list A) (l' : list B) :
  List.length l = List.length l' -> map snd (combine l l') = l'.
Proof.
  revert l'. induction l as [|a l IH]; intros [|b l']; simpl; intros H;
    try discriminate; [reflexivity|].
  f_equal. apply IH. lia.
Qed.

Lemma cells_under_ints (k : value) (keys : Series) (zs : list Z) :
  int_sum (cells_under k (combine keys (map Int zs))) = amount_under k keys zs.
Proof.
  unfold cells_under.
  revert zs. induction keys as [|k' keys IH]; intros [|z zs]; simpl;
    try reflexivity.
  destruct (value_eqb k k'); simpl; rewrite IH; lia.
Qed.

Lemma cells_under_floats (k : value) (keys : Series) (xs : list float) :
  map to_float (filter notnull (cells_under k (combine keys (map Float xs))))
  = floats_under k keys xs.
Proof.
  unfold cells_under.
  revert xs. induction keys as [|k' keys IH]; intros [|x xs]; simpl;
    try reflexivity.
  destruct (value_eqb k k'); simpl; now rewrite IH.
Qed.

(** The groups of a column of integers: one for every key that is not
    missing, with the amounts of the records under that key added up in
    64 bits. *)
Lemma groupby_sum_ints (keys : Series) (zs : list Z) :
  List.length keys = List.length zs ->
  groupby_sum (combine keys (map Int zs))
  = inl (map (fun k => (k, Int (wrap64 (amount_under k keys zs))))
           (group_keys keys)).
Proof.
  intros Hlen. unfold groupby_sum.
  rewrite map_snd_combine, map_fst_combine by (now rewrite length_map).
  rewrite dtype_of_ints, group_totals_int. f_equal.
  apply map_ext. intros k. now rewrite cells_under_ints.
Qed.

(** The groups of a column of binary64 numbers. *)
Lemma groupby_sum_floats (keys : Series) (xs : list float) :
  xs <> [] ->
  List.length keys = List.length xs ->
  groupby_sum (combine keys (map Float xs))
  = inl (map (fun k => (k, Float (group_sum (floats_under k keys xs))))
           (group_keys keys)).
Proof.
  intros Hne Hlen. unfold groupby_sum.
  rewrite map_snd_combine, map_fst_combine by (now rewrite length_map).
  destruct xs as [|x xs]; [congruence|].
  rewrite dtype_of_floats, group_totals_float. f_equal.
  apply map_ext. intros k. now rewrite cells_under_floats.
Qed.

(** The groups of the amounts the loader lets through. *)
Lemma groupby_sum_positive (keys amounts : Series) :
  positive_amounts amounts ->
  List.length keys = List.length amounts ->
  exists g,
    groupby_sum (combine keys amounts) = inl g /\
    map fst g = group_keys keys /\
    (forall zs, amounts = map Int zs ->
       g = map (fun k => (k, Int (wrap64 (amount_under k keys zs))))
             (group_keys keys)) /\
    (forall xs, xs <> [] -> amounts = map Float xs ->
       g = map (fun k => (k, Float (group_sum (floats_under k keys xs))))
             (group_keys keys)).
Proof.
  intros [[zs [-> _]]|[xs [Hne [-> _]]]] Hlen; rewrite length_map in Hlen.
  - eexists. split; [now apply groupby_sum_ints|].
    split; [rewrite map_map; apply map_id|]. split.
    + intros zs' E. apply map_Int_inj in E. now subst.
    + intros xs' Hne E. apply ints_or_floats in E. destruct E. congruence.
  - eexists. split; [now apply groupby_sum_floats|].
    split; [rewrite map_map; apply map_id|]. split.
    + intros zs' E. symmetry in E. apply ints_or_floats in E.
      destruct E. congruence.
    + intros xs' _ E. apply map_Float_inj in E. now subst.
Qed.

Lemma amount_under_bounds (k : value) (keys : Series) (zs : list Z) :
  Forall (fun z => 0 < z) zs ->
  0 <= amount_under k keys zs <= fold_right Z.add 0 zs.
Proof.
  intros Hpos. revert keys.
  induction Hpos as [|z zs Hz _ IH]; intros [|d keys]; simpl; try lia.
  - assert (0 <= fold_right Z.add 0 zs); [|lia].
    specialize (IH []). destruct zs; simpl in *; lia.
  - specialize (IH keys). destruct (value_eqb k d); lia.
Qed.


Lemma sum_pointwise {A : Type} (f g : A -> Z) (l : list A) :
  fold_right Z.add 0 (map (fun a => f a + g a) l)
  = fold_right Z.add 0 (map f l) + fold_right Z.add 0 (map g l).
Proof. induction l as [|a l IH]; simpl; lia. Qed.

Lemma sum_zero {A : Type} (l : list A) :
  fold_right Z.add 0 (map (fun _ => 0) l) = 0.
Proof. induction l as [|a l IH]; simpl; lia. Qed.

Lemma sum_at_key (d : value) (z : Z) (ks : list value) :
  NoDup ks ->
  fold_right Z.add 0 (map (fun k => if value_eqb k d then z else 0) ks)
  = if in_dec value_eq_dec d ks then z else 0.
Proof.
  induction 1 as [|k ks Hk Hnd IH]; simpl; [reflexivity|].
  rewrite IH. destruct (value_eq_dec k d) as [->|Hne].
  - rewrite value_eqb_refl.
    destruct (in_dec value_eq_dec d ks); [contradiction|lia].
  - assert (E : value_eqb k d = false) by now apply value_eqb_neq.
    rewrite E. destruct (in_dec value_eq_dec d ks); lia.
Qed.

(** Over keys that come once and among which every key of a record is,
    the amounts under the keys add up to the amounts of the records whose
    key is not missing. *)
Lemma amount_under_total (ks : list value) (keys : Series) (zs : list Z) :
  NoDup ks -> ~ In NaN ks ->
  (forall k, In k keys -> k <> NaN -> In k ks) ->
  fold_right Z.add 0 (map (fun k => amount_under k keys zs) ks)
  = fold_right Z.add 0 (dated_amounts keys zs).
Proof.
  intros Hnd Hnan. revert zs.
  induction keys as [|d keys IH]; intros zs Hin; simpl.
  - apply sum_zero.
  - destruct zs as [|z zs]; [apply sum_zero|].
    rewrite sum_pointwise, IH by (intros k Hk; apply Hin; now right).
    rewrite (sum_at_key d z ks Hnd).
    destruct d; simpl;
      try (destruct (in_dec value_eq_dec _ ks) as [|Hout];
           [lia|exfalso; apply Hout, Hin; [now left|discriminate]]).
    destruct (in_dec value_eq_dec NaN ks); [contradiction|lia].
Qed.

Lemma dated_amounts_all (keys : Series) (zs : list Z) :
  ~ In NaN keys -> List.length keys = List.length zs ->
  dated_amounts keys zs = zs.
Proof.
  revert zs. induction keys as [|d keys IH]; intros [|z zs] Hn Hlen;
    simpl in *; try discriminate; [reflexivity|].
  destruct d; simpl; try (f_equal; apply IH; [tauto|lia]).
  exfalso. apply Hn. now left.
Qed.

Lemma dated_amounts_le (keys : Series) (zs : list Z) :
  Forall (fun z => 0 < z) zs ->
  0 <= fold_right Z.add 0 (dated_amounts keys zs) <= fold_right Z.add 0 zs.
Proof.
  intros Hpos. revert keys.
  induction Hpos as [|z zs Hz _ IH]; intros [|d keys]; simpl; try lia.
  - specialize (IH []). destruct zs; simpl in *; lia.
  - specialize (IH keys). destruct (isnull d); simpl; lia.
Qed.

Lemma total_ints (f : value -> Z) (ks : list value) :
  total (map (fun k => (k, Int (f k))) ks) = fold_right Z.add 0 (map f ks).
Proof.
  unfold total. induction ks as [|k ks IH]; simpl; [reflexivity|].
  now rewrite IH.
Qed.

(* ================================================================== *)
(** * Sorting the groups *)

Lemma amount_leb_refl (a : value) : amount_leb a a = true.
Proof. unfold amount_leb. now rewrite lex_compare_refl. Qed.

(** Groups whose sums are all different have one descending order. *)
Lemma sort_values_desc_unique (l l' : list (value * value)) :
  Permutation l l' -> StronglySorted sum_above l' ->
  sort_values_desc l = l'.
Proof.
  intros Hperm Hl'.
  pose proof (sort_values_desc_sorted l) as Hs.
  assert (Hp : Permutation (sort_values_desc l) l').
  { eapply perm_trans; [apply sort_values_desc_perm|assumption]. }
  clear Hperm. revert Hs Hp. generalize (sort_values_desc l) as s.
  induction Hl' as [|a r Hr IH Ha]; intros s Hs Hp.
  - apply Permutation_nil. now symmetry.
  - destruct s as [|b t].
    { apply Permutation_nil_cons in Hp. destruct Hp. }
    inversion Hs as [|? ? Ht Hb]; subst.
    rewrite Forall_forall in Ha, Hb.
    assert (b = a) as ->.
    { assert (Hin : In b (a :: r))
        by (apply (Permutation_in _ Hp); now left).
      destruct Hin as [E|Hin]; [now subst|]. exfalso.
      assert (Hin' : In a (b :: t)).
      { apply (Permutation_in _ (Permutation_sym Hp)). now left. }
      specialize (Ha b Hin). unfold sum_above in Ha.
      destruct Hin' as [E|Hin'].
      - subst. rewrite amount_leb_refl in Ha. discriminate.
      - specialize (Hb a Hin'). unfold sum_desc in Hb. congruence. }
    f_equal. apply IH; [assumption|].
    now apply Permutation_cons_inv in Hp.
Qed.

Lemma int_sum_perm (s s' : Series) :
  Permutation s s' -> int_sum s = int_sum s'.
Proof.
  induction 1 as [|v l l' _ IH|v w l|l l' l'' _ IH1 _ IH2]; simpl.
  - reflexivity.
  - destruct v; simpl; lia.
  - destruct v, w; simpl; lia.
  - congruence.
Qed.

Lemma total_perm (l l' : list (value * value)) :
  Permutation l l' -> total l = total l'.
Proof.
  intros H. unfold total. apply int_sum_perm. now apply Permutation_map.
Qed.

(* ================================================================== *)
(** * Grouping does not depend on the order of the records *)

Lemma forallb_perm {A : Type} (p : A -> bool) (l l' : list A) :
  Permutation l l' -> forallb p l = forallb p l'.
Proof.
  induction 1 as [|v l l' _ IH|v w l|l l' l'' _ IH1 _ IH2]; simpl.
  - reflexivity.
  - now rewrite IH.
  - destruct (p v), (p w); reflexivity.
  - congruence.
Qed.

Lemma dtype_of_perm (s s' : Series) :
  Permutation s s' -> dtype_of s = dtype_of s'.
Proof.
  intros H. unfold dtype_of.
  now rewrite (forallb_perm is_int _ _ H), (forallb_perm is_number _ _ H),
    (forallb_perm is_day _ _ H).
Qed.



(* ================================================================== *)
(** * The category chart *)

Lemma strs_not_null (names : list string) :
  Forall (fun v => v <> NaN) (map Str names).
Proof.
  apply Forall_forall. intros v Hv. apply in_map_iff in Hv.
  destruct Hv as [z [<- _]]. discriminate.
Qed.

Lemma validated_lengths (df : DataFrame) (c c' : string) (s s' : Series) :
  validated df -> getitem df c = inl s -> getitem df c' = inl s' ->
  List.length s = List.length s'.
Proof.
  intros V Hs Hs'. destruct (v_rectangular df V) as [n Hn].
  now rewrite (Hn _ _ Hs), (Hn _ _ Hs').
Qed.

Lemma category_sales_validated (df : DataFrame) :
  validated df ->
  exists cats amounts sums,
    getitem df "category" = inl (map Str cats) /\
    getitem df "total_amount" = inl amounts /\
    positive_amounts amounts /\
    List.length (map Str cats) = List.length amounts /\
    groupby_sum (combine (map Str cats) amounts) = inl sums /\
    map fst sums = group_keys (map Str cats) /\
    (forall zs, amounts = map Int zs ->
       sums = map (fun k => (k, Int (wrap64 (amount_under k (map Str cats) zs))))
                (group_keys (map Str cats))) /\
    (forall xs, xs <> [] -> amounts = map Float xs ->
       sums = map (fun k => (k, Float (group_sum
                                         (floats_under k (map Str cats) xs))))
                (group_keys (map Str cats))) /\
    category_sales df = inl (sort_values_desc sums).
Proof.
  intros V.
  destruct (v_amounts df V) as [amounts [Ha Hpos]].
  destruct (v_category df V) as [cats [Hc _]].
  pose proof (validated_lengths df _ _ _ _ V Hc Ha) as Hlen.
  destruct (groupby_sum_positive (map Str cats) amounts Hpos Hlen)
    as [sums [Hs [Hk [Hi Hf]]]].
  exists cats, amounts, sums. repeat split; try assumption.
  unfold category_sales. rewrite Hc, Ha. simpl. now rewrite Hs.
Qed.


(* ================================================================== *)
(** * The sums of the groups against the total *)

(** Grouping a column of integers by category leaves no record out: the
    sums add up to the total of the sales as long as that total fits 64
    bits. *)
Lemma category_sales_total (df : DataFrame) (zs : list Z) :
  validated df ->
  getitem df "total_amount" = inl (map Int zs) ->
  fold_right Z.add 0 zs < 2 ^ 63 ->
  exists by_category k,
    category_sales df = inl by_category /\
    calculate_kpis df = inl k /\
    forallb is_int (map snd by_category) = true /\
    total_sales k = Int (fold_right Z.add 0 zs) /\
    total by_category = fold_right Z.add 0 zs.
Proof.
  intros V Hz Hfit.
  destruct (category_sales_validated df V)
    as [cats [amounts [sums [Hc [Ha [Hpos [Hlen [Hs [Hk [Hi [_ Hsales]]]]]]]]]]].
  rewrite Hz in Ha. inversion Ha; subst amounts. clear Ha.
  destruct (calculate_kpis_validated df V)
    as [amounts' [ids [sales [Ha' [_ [_ [_ [Hsum [_ Hkpi]]]]]]]]].
  rewrite Hz in Ha'. inversion Ha'; subst amounts'. clear Ha'.
  rewrite series_sum_ints in Hsum. inversion Hsum; subst sales. clear Hsum.
  assert (Hzs : Forall (fun z => 0 < z) zs).
  { destruct Hpos as [[zs' [E Hp]]|[xs [Hne [E _]]]].
    - apply map_Int_inj in E. now subst.
    - apply ints_or_floats in E. destruct E as [-> _]. constructor. }
  rewrite length_map in Hlen.
  specialize (Hi zs eq_refl).
  assert (Hsums : sums = map (fun k => (k, Int (amount_under k (map Str cats) zs)))
                           (group_keys (map Str cats))).
  { rewrite Hi. apply map_ext. intros k.
    pose proof (amount_under_bounds k (map Str cats) zs Hzs).
    rewrite wrap64_small; [reflexivity|lia]. }
  eexists _, _. split; [exact Hsales|]. split; [exact Hkpi|]. simpl.
  split; [|split].
  - rewrite (forallb_perm is_int _ (map snd sums)).
    2:{ apply Permutation_map, sort_values_desc_perm. }
    rewrite Hsums, map_map. simpl.
    apply forallb_forall. intros v Hv. apply in_map_iff in Hv.
    now destruct Hv as [k [<- _]].
  - rewrite wrap64_small; [reflexivity|].
    pose proof (amount_under_bounds NaN [] zs Hzs). simpl in *.
    destruct zs; simpl in *; lia.
  - rewrite (total_perm _ sums) by apply sort_values_desc_perm.
    rewrite Hsums, total_ints.
    rewrite (amount_under_total _ (map Str cats) zs).
    + rewrite dated_amounts_all; [reflexivity| |now rewrite length_map in *].
      intros Hin. apply in_map_iff in Hin. destruct Hin as [t [E _]].
      discriminate.
    + apply ascending_NoDup, group_keys_sorted.
    + rewrite group_keys_In. tauto.
    + intros k Hin Hn. now apply group_keys_In.
Qed.

(** The sums by date of a column of integers add up to the amounts of the
    records that have a date. *)
Lemma daily_sales_total_dated (df : DataFrame) (zs : list Z) :
  validated df ->
  getitem df "total_amount" = inl (map Int zs) ->
  fold_right Z.add 0 zs < 2 ^ 63 ->
  exists dates daily,
    getitem df "date" = inl dates /\
    daily_sales df = inl daily /\
    forallb is_int (map snd daily) = true /\
    total daily = fold_right Z.add 0 (dated_amounts dates zs).
Proof.
  intros V Hz Hfit.
  destruct (In_columns_getitem df "date") as [dates Hd].
  { apply (v_columns df V). simpl. tauto. }
  pose proof (validated_lengths df _ _ _ _ V Hd Hz) as Hlen.
  rewrite length_map in Hlen.
  assert (Hzs : Forall (fun z => 0 < z) zs).
  { destruct (v_amounts df V) as [amounts [Ha Hpos]].
    rewrite Hz in Ha. inversion Ha; subst amounts.
    destruct Hpos as [[zs' [E Hp]]|[xs [Hne [E _]]]].
    - apply map_Int_inj in E. now subst.
    - apply ints_or_floats in E. destruct E as [-> _]. constructor. }
  exists dates.
  exists (map (fun k => (k, Int (amount_under k dates zs))) (group_keys dates)).
  split; [assumption|]. split; [|split].
  - unfold daily_sales. rewrite Hd, Hz. simpl.
    rewrite (groupby_sum_ints dates zs Hlen). f_equal.
    apply map_ext. intros k.
    pose proof (amount_under_bounds k dates zs Hzs).
    rewrite wrap64_small; [reflexivity|lia].
  - rewrite map_map. simpl. apply forallb_forall. intros v Hv.
    apply in_map_iff in Hv. now destruct Hv as [k [<- _]].
  - rewrite total_ints. apply amount_under_total.
    + apply ascending_NoDup, group_keys_sorted.
    + rewrite group_keys_In. tauto.
    + intros k Hin Hn. now apply group_keys_In.
Qed.

(** C5, at a file the loader lets through with one record that has no
    date: the record is in [total_sales] and in the sums by category, and
    it is in no group of the sums by date, which add up to less. *)
Theorem daily_sales_leaves_out_undated_records :
  load_data (only (a_file undated_lines)) DATA_FILE_PATH = inl undated_frame /\
  calculate_kpis undated_frame
    = inl {| total_sales := Int 15; total_orders := 2 |} /\
  category_sales undated_frame
    = inl [(Str "Electronics", Int 10); (Str "Accessories", Int 5)] /\
  daily_sales undated_frame = inl [(Timestamp 20240101, Int 10)] /\
  total [(Timestamp 20240101, Int 10)] <> 15.
Proof.
  split; [reflexivity|]. split; [reflexivity|]. split; [|split].
  - unfold category_sales.
    change (getitem undated_frame "category")
      with (@inl Series exn [Str "Electronics"; Str "Accessories"]).
    change (getitem undated_frame "total_amount")
      with (@inl Series exn [Int 10; Int 5]).
    cbn [bind].
    change (groupby_sum (combine [Str "Electronics"; Str "Accessories"]
                           [Int 10; Int 5]))
      with (@inl (list (value * value)) exn
              [(Str "Accessories", Int 5); (Str "Electronics", Int 10)]).
    cbn [bind]. unfold ret. f_equal.
    apply sort_values_desc_unique; [apply perm_swap|].
    repeat constructor.
  - reflexivity.
  - discriminate.
Qed.

(* ================================================================== *)
(** * The order of the checks *)

Lemma existsb_isnull (s : Series) : any (map isnull s) = existsb isnull s.
Proof.
  unfold any. induction s as [|v s IH]; simpl; [reflexivity|].
  now rewrite IH.
Qed.

Lemma zero_ltb_nonempty {A : Type} (l : list A) :
  (0 <? List.length l)%nat = nonempty l.
Proof. destruct l; reflexivity. Qed.

Ltac walk := cbn [bind raise_if ret raise some_if negb].

Lemma load_data_try_in_order (fs : filesystem) (filepath : string) :
  load_data_try fs filepath = load_in_order fs filepath.
Proof.
  unfold load_data_try, load_in_order, validation_order, first_violation,
    violation, on_column, outside_enum.
  destruct (path_exists fs filepath); walk; [|reflexivity].
  destruct (read_csv fs filepath ["date"]) as [df|e]; walk; [|reflexivity].
  destruct (nonempty (filter (fun col => negb (mem col (columns df)))
                        required_columns)); walk; [reflexivity|].
  destruct (getitem df "total_amount") as [amounts|e]; walk; [|reflexivity].
  rewrite existsb_isnull.
  destruct (existsb isnull amounts); walk; [reflexivity|].
  destruct (getitem df "order_id") as [ids|e]; walk; [|reflexivity].
  rewrite existsb_isnull.
  destruct (existsb isnull ids); walk; [reflexivity|].
  destruct (le_scalar amounts 0) as [m|e]; walk; [|reflexivity].
  destruct (any m); walk; [reflexivity|].
  destruct (getitem df "quantity") as [qs|e]; walk; [|reflexivity].
  destruct (lt_scalar qs 1) as [m'|e]; walk; [|reflexivity].
  destruct (any m'); walk; [reflexivity|].
  destruct (getitem df "category") as [cats|e]; walk; [|reflexivity].
  rewrite zero_ltb_nonempty.
  destruct (nonempty (invalid_values valid_categories cats)); walk.
  { destruct (strings_of _); reflexivity. }
  destruct (getitem df "region") as [regs|e]; walk; [|reflexivity].
  rewrite zero_ltb_nonempty.
  destruct (nonempty (invalid_values valid_regions regs)); walk.
  { destruct (strings_of _); reflexivity. }
  reflexivity.
Qed.

Lemma first_violation_split (fs : filesystem) (filepath : string)
  (before after : list check) (c : check) (e : exn) :
  (forall b, In b before -> violation fs filepath b = None) ->
  violation fs filepath c = Some e ->
  first_violation fs filepath (before ++ c :: after) = Some e.
Proof.
  intros Hb Hc. induction before as [|b before IH]; simpl.
  - now rewrite Hc.
  - rewrite (Hb b (or_introl eq_refl)). apply IH.
    intros b' Hb'. apply Hb. now right.
Qed.

(** C2.  [load_data] is the walk through the checks in the order file
    existence, header columns, missing amount, missing order id, amount
    above 0, quantity at least 1, category in its set, region in its set:
    it fails with the first violation of that walk and, when there is
    none, returns the frame that was read.  So a check that is violated
    after all the checks before it have passed gives the failure of the
    load, whatever the checks after it would find. *)
Theorem load_data_check_order (fs : filesystem) (filepath : string) :
  load_data_try fs filepath = load_in_order fs filepath /\
  forall before c after e,
    validation_order = (before ++ c :: after)%list ->
    (forall b, In b before -> violation fs filepath b = None) ->
    violation fs filepath c = Some e ->
    load_data_try fs filepath = inr e /\
    exists heading, load_data fs filepath = inr [st_error heading e].
Proof.
  split; [apply load_data_try_in_order|].
  intros before c after e Horder Hbefore Hc.
  assert (H : load_data_try fs filepath = inr e).
  { rewrite load_data_try_in_order. unfold load_in_order.
    rewrite Horder. now rewrite (first_violation_split _ _ _ _ _ e Hbefore Hc). }
  split; [assumption|].
  unfold load_data. rewrite H. destruct e; eauto.
Qed.

Lemma load_data_check_order_witness :
  load_data_try (only (a_file two_defects_lines)) DATA_FILE_PATH
    = inr (ValueError "Data contains missing order IDs") /\
  exists heading,
    load_data (only (a_file two_defects_lines)) DATA_FILE_PATH
      = inr [st_error heading (ValueError "Data contains missing order IDs")].
Proof.
  apply (proj2 (load_data_check_order (only (a_file two_defects_lines))
                  DATA_FILE_PATH)
           [FileExists; HeaderColumns; AmountPresent] OrderIdPresent
           [AmountPositive; QuantityAtLeastOne; CategoryInEnum; RegionInEnum]).
  - reflexivity.
  - intros b Hb. simpl in Hb.
    repeat (destruct Hb as [<-|Hb]; [reflexivity|]). destruct Hb.
  - reflexivity.
Defined.

(** The region of that file is refused as well, by a check that is not
    reached. *)
Example two_defects_region :
  violation (only (a_file two_defects_lines)) DATA_FILE_PATH RegionInEnum
  = Some (ValueError "Data contains invalid regions: Centre").
Proof. reflexivity. Qed.

(* ================================================================== *)
(** * The frames the loader lets through *)

Lemma le_scalar_passes (s : Series) :
  positive_amounts s ->
  exists m, le_scalar s 0 = inl m /\ any m = false.
Proof.
  intros [[zs [-> Hpos]]|[xs [_ [-> Hpos]]]].
  - induction Hpos as [|z zs Hz _ [m [Hm Hany]]]; simpl.
    + exists []. split; reflexivity.
    + rewrite Hm. simpl. eexists. split; [reflexivity|].
      simpl. rewrite Hany. apply orb_false_iff. split; [|reflexivity].
      apply Z.leb_gt. lia.
  - induction Hpos as [|x xs Hx _ [m [Hm Hany]]]; simpl.
    + exists []. split; reflexivity.
    + rewrite Hm. simpl. eexists. split; [reflexivity|].
      simpl. rewrite Hany. apply orb_false_iff. now split.
Qed.

Lemma positive_amounts_present (s : Series) :
  positive_amounts s -> Forall (fun v => v <> NaN) s.
Proof.
  intros [[zs [-> _]]|[xs [_ [-> _]]]];
    [apply ints_not_null|apply floats_not_null].
Qed.

Lemma lt_scalar_passes (qs : Series) :
  Forall quantity_passes qs ->
  exists m, lt_scalar qs 1 = inl m /\ any m = false.
Proof.
  induction 1 as [|v qs Hv _ [m [Hm Hany]]]; simpl.
  - exists []. split; reflexivity.
  - rewrite Hm. destruct Hv as [->|[[z [-> Hz]]|[x [-> Hx]]]]; simpl.
    + eexists. split; [reflexivity|]. simpl. assumption.
    + eexists. split; [reflexivity|]. simpl. rewrite Hany.
      apply orb_false_iff. split; [|reflexivity]. apply Z.ltb_ge. lia.
    + eexists. split; [reflexivity|]. simpl. rewrite Hany.
      apply orb_false_iff. now split.
Qed.

Lemma invalid_values_names (allowed names : list string) :
  Forall (fun c => In c allowed) names ->
  invalid_values allowed (map Str names) = [].
Proof.
  intros H. unfold invalid_values. rewrite select_map.
  rewrite (filter_all_false _ (map Str names)); [reflexivity|].
  intros v Hv. apply in_map_iff in Hv. destruct Hv as [c [<- Hc]].
  rewrite Forall_forall in H. simpl.
  apply negb_false_iff, mem_In. auto.
Qed.

Lemma existsb_isnull_false (s : Series) :
  Forall (fun v => v <> NaN) s -> existsb isnull s = false.
Proof.
  intros H. rewrite <- existsb_isnull. now apply any_isnull_false.
Qed.

(** The loader returns the frame the reader gives exactly when that frame
    has what the checks ask for. *)
Lemma load_data_try_iff (fs : filesystem) (filepath : string) (df : DataFrame) :
  load_data_try fs filepath = inl df <->
  read_csv fs filepath ["date"] = inl df /\ validated df.
Proof.
  split; [apply load_data_try_inl|].
  intros [Hread V].
  destruct (v_amounts df V) as [amounts [Ha Hpos]].
  destruct (v_orders df V) as [ids [Hi Hnn]].
  destruct (v_quantity df V) as [qs [Hq Hqs]].
  destruct (v_category df V) as [cats [Hc Hcats]].
  destruct (v_region df V) as [regs [Hr Hregs]].
  destruct (le_scalar_passes amounts Hpos) as [m [Hm Hany]].
  destruct (lt_scalar_passes qs Hqs) as [m' [Hm' Hany']].
  rewrite load_data_try_in_order.
  unfold load_in_order, validation_order, first_violation, violation,
    on_column, outside_enum, path_exists.
  rewrite Hread, Ha, Hi, Hq, Hc, Hr, Hm, Hm', Hany, Hany'.
  rewrite (invalid_values_names _ _ Hcats), (invalid_values_names _ _ Hregs).
  rewrite (existsb_isnull_false _ Hnn).
  rewrite (existsb_isnull_false _ (positive_amounts_present _ Hpos)).
  rewrite (filter_all_false _ required_columns).
  2:{ intros c Hin. apply negb_false_iff, mem_In. now apply (v_columns df V). }
  apply read_csv_inl in Hread. destruct Hread as [f [-> _]].
  reflexivity.
Qed.

(* ================================================================== *)
(** * The unit price *)

Lemma position_nth (c : string) (names : list string) (j : nat) :
  position c names = Some j -> nth j names "" = c.
Proof.
  revert j. induction names as [|name names IH]; intros j; simpl;
    [discriminate|].
  destruct (String.eqb name c) eqn:E.
  - intros H. inversion H. now apply String.eqb_eq.
  - destruct (position c names) as [i|]; simpl; [|discriminate].
    intros H. inversion H. now apply IH.
Qed.

Lemma getitem_same_outside (pd : list string) (f f' : csv) (c c' : string) :
  same_outside c f f' -> c' <> c ->
  getitem (read_columns pd 0 (header f') (lines f')) c'
  = getitem (read_columns pd 0 (header f) (lines f)) c'.
Proof.
  intros [Hh Hcols] Hne. rewrite !getitem_read_columns, Hh.
  destruct (position c' (header f)) as [j|] eqn:E; [|reflexivity].
  simpl. rewrite Hcols; [reflexivity|].
  now rewrite (position_nth _ _ _ E).
Qed.

(** A file that differs from a file the loader lets through in a column
    that no check looks into is let through too. *)
Lemma load_data_same_outside (fs fs' : filesystem) (filepath c : string)
  (f f' : csv) (df : DataFrame) :
  ~ In c ["total_amount"; "order_id"; "quantity"; "category"; "region"] ->
  fs filepath = Some (File f) ->
  fs' filepath = Some (File f') ->
  same_outside c f f' ->
  load_data fs filepath = inl df ->
  df = read_columns ["date"] 0 (header f) (lines f) /\
  validated df /\
  load_data fs' filepath
  = inl (read_columns ["date"] 0 (header f') (lines f')) /\
  forall c', c' <> c ->
    getitem (read_columns ["date"] 0 (header f') (lines f')) c'
    = getitem df c'.
Proof.
  intros Hc Hf Hf' Hsame H.
  apply load_data_inl, load_data_try_iff in H. destruct H as [Hread V].
  apply read_csv_inl in Hread.
  destruct Hread as [f0 [Hf0 [Hdf [Hne Hdate]]]].
  rewrite Hf in Hf0. inversion Hf0; subst f0. clear Hf0.
  pose proof Hsame as [Hh _].
  set (df' := read_columns ["date"] 0 (header f') (lines f')).
  assert (Hget : forall c', c' <> c -> getitem df' c' = getitem df c').
  { intros c' Hc'. subst df df'. now apply (getitem_same_outside _ f f' c). }
  assert (Hread' : read_csv fs' filepath ["date"] = inl df').
  { apply read_csv_ok; rewrite ?Hh; assumption. }
  split; [assumption|]. split; [assumption|]. split; [|assumption].
  apply load_data_inl, load_data_try_iff. split; [assumption|].
  destruct V as [Vc Va Vo Vq Vcat Vr _].
  constructor.
  - intros c0 Hc0. subst df df'. rewrite read_columns_names, Hh.
    specialize (Vc c0 Hc0). now rewrite read_columns_names in Vc.
  - rewrite Hget; [assumption|]. intros <-. apply Hc. simpl. tauto.
  - rewrite Hget; [assumption|]. intros <-. apply Hc. simpl. tauto.
  - rewrite Hget; [assumption|]. intros <-. apply Hc. simpl. tauto.
  - rewrite Hget; [assumption|]. intros <-. apply Hc. simpl. tauto.
  - rewrite Hget; [assumption|]. intros <-. apply Hc. simpl. tauto.
  - eapply read_csv_rectangular; eauto.
Qed.

(** C9.  [load_data] looks at no cell of [unit_price]: when it returns
    the table of a file, it also returns the table of every file that
    differs from it in the [unit_price] fields only, whatever these fields
    hold; the other columns of the two tables are the same, and the
    [unit_price] column is what the reader makes of the new fields. *)
Theorem load_data_ignores_unit_price
  (fs fs' : filesystem) (filepath : string) (f f' : csv) (df : DataFrame) :
  fs filepath = Some (File f) ->
  fs' filepath = Some (File f') ->
  same_outside "unit_price" f f' ->
  load_data fs filepath = inl df ->
  exists df',
    load_data fs' filepath = inl df' /\
    (forall c, c <> "unit_price" -> getitem df' c = getitem df c) /\
    getitem df' "unit_price" = inl (infer_column (fields_of f' "unit_price")).
Proof.
  intros Hf Hf' Hsame H.
  destruct (load_data_same_outside fs fs' filepath "unit_price" f f' df)
    as [Hdf [V [Hload Hget]]]; try assumption.
  { simpl. intros Hin. decompose [or] Hin; discriminate || assumption. }
  eexists. split; [exact Hload|]. split; [exact Hget|].
  rewrite getitem_read_columns. unfold fields_of.
  assert (Hin : In "unit_price" (header f')).
  { destruct Hsame as [Hh _]. rewrite Hh. subst df.
    pose proof (v_columns _ V "unit_price") as Hc.
    rewrite read_columns_names in Hc. apply Hc. simpl. tauto. }
  destruct (position_In _ _ Hin) as [j ->]. reflexivity.
Qed.

Lemma load_data_ignores_unit_price_witness :
  exists df',
    load_data (only (a_file unpriced_lines)) DATA_FILE_PATH = inl df' /\
    (forall c, c <> "unit_price" -> getitem df' c = getitem example_frame c) /\
    getitem df' "unit_price"
    = inl (infer_column (fields_of (a_file unpriced_lines) "unit_price")).
Proof.
  apply (load_data_ignores_unit_price
           (only (a_file example_lines)) (only (a_file unpriced_lines))
           DATA_FILE_PATH (a_file example_lines) (a_file unpriced_lines)).
  - reflexivity.
  - reflexivity.
  - split; [reflexivity|].
    intros i Hi.
    do 8 (destruct i as [|i];
          [try reflexivity; exfalso; apply Hi; reflexivity|]).
    destruct i; reflexivity.
  - vm_compute. reflexivity.
Defined.

(** The table of that file: a zero, a negative number and a missing value
    in the [unit_price] column, which the missing value makes a column of
    binary64 numbers. *)
Example unpriced_table :
  exists df,
    load_data (only (a_file unpriced_lines)) DATA_FILE_PATH = inl df /\
    getitem df "unit_price"
    = inl [Float (float_of_Z 0); Float (float_of_Z (-5)); NaN].
Proof. eexists. split; vm_compute; reflexivity. Qed.

(* ================================================================== *)
(** * The order ids *)

Lemma int64_literal_present (field : string) (z : Z) :
  int64_literal field = Some z -> is_na field = false.
Proof.
  intros H. destruct (is_na field) eqn:E; [|reflexivity]. exfalso.
  unfold is_na, mem in E. simpl in E.
  repeat match type of E with
  | (?a =? ?b)%string || _ = true =>
      destruct (String.eqb_spec a b) as [->|_];
      [vm_compute in H; discriminate|simpl in E]
  end.
  discriminate.
Qed.

Lemma infer_column_na (fields : list string) (field : string) :
  In field fields -> is_na field = true -> In NaN (infer_column fields).
Proof.
  intros Hin Hna. unfold infer_column.
  destruct (forallb (fun f => is_some (int64_literal f)) fields) eqn:E1.
  - exfalso. rewrite forallb_forall in E1. specialize (E1 field Hin).
    destruct (int64_literal field) as [z|] eqn:Ez; [|discriminate].
    apply int64_literal_present in Ez. congruence.
  - destruct (forallb (fun f => is_na f || is_some (parse_float f)) fields);
      apply in_map_iff; exists field; now rewrite Hna.
Qed.

Lemma infer_column_present (fields : list string) :
  ~ In NaN (infer_column fields) ->
  Forall (fun field => is_na field = false) fields.
Proof.
  intros H. apply Forall_forall. intros field Hin.
  destruct (is_na field) eqn:E; [|reflexivity].
  exfalso. apply H. now apply (infer_column_na fields field).
Qed.

Lemma infer_column_text (fields : list string) (t : string) :
  In (Str t) (infer_column fields) -> is_na t = false.
Proof.
  unfold infer_column.
  destruct (forallb (fun f => is_some (int64_literal f)) fields).
  { intros H. apply in_map_iff in H. destruct H as [field [H _]].
    destruct (int64_literal field); discriminate. }
  destruct (forallb (fun f => is_na f || is_some (parse_float f)) fields);
    intros H; apply in_map_iff in H; destruct H as [field [H _]].
  - destruct (is_na field); [discriminate|].
    destruct (parse_float field); discriminate.
  - destruct (is_na field) eqn:E; [discriminate|]. now inversion H; subst.
Qed.

Lemma not_null_In (s : Series) : Forall (fun v => v <> NaN) s <-> ~ In NaN s.
Proof.
  rewrite Forall_forall. split.
  - intros H Hin. now apply (H NaN Hin).
  - intros H v Hv ->. contradiction.
Qed.

Lemma existsb_isnull_true (s : Series) : In NaN s -> existsb isnull s = true.
Proof. intros H. apply existsb_exists. now exists NaN. Qed.

Lemma In_filter_notnull (v : value) (s : Series) :
  In v (filter notnull s) <-> In v s /\ v <> NaN.
Proof.
  rewrite filter_In. unfold notnull. destruct v; simpl; intuition congruence.
Qed.

(** C10, as the program has it.  The check of the order ids refuses a file
    in which an [order_id] field is one of the reader's NA markers, the
    empty field among them: once the checks before it have passed, the
    load fails with the missing order ids.  So the table a load returns
    comes from a file without such a field and holds no empty-string order
    id.  [calculate_kpis] counts once every value of the [order_id] column
    of the frame it is given that is not missing. *)
Theorem order_id_check (fs : filesystem) (filepath : string) (f : csv) :
  fs filepath = Some (File f) ->
  (violation fs filepath HeaderColumns = None ->
   violation fs filepath AmountPresent = None ->
   (exists field, In field (fields_of f "order_id") /\ is_na field = true) ->
   load_data_try fs filepath
   = inr (ValueError "Data contains missing order IDs")) /\
  (forall df, load_data fs filepath = inl df ->
     Forall (fun field => is_na field = false) (fields_of f "order_id") /\
     exists ids, getitem df "order_id" = inl ids /\
                 ~ In NaN ids /\ ~ In (Str "") ids) /\
  (forall df ids k,
     getitem df "order_id" = inl ids -> calculate_kpis df = inl k ->
     exists distinct,
       NoDup distinct /\
       (forall v, In v distinct <-> In v ids /\ v <> NaN) /\
       total_orders k = List.length distinct).
Proof.
  intros Hf.
  assert (Hne : "order_id" <> "date") by discriminate.
  split; [|split].
  - intros Hheader Hamount [field [Hin Hna]].
    rewrite load_data_try_in_order. unfold load_in_order.
    change validation_order
      with ([FileExists; HeaderColumns; AmountPresent]
              ++ OrderIdPresent
              :: [AmountPositive; QuantityAtLeastOne; CategoryInEnum;
                  RegionInEnum])%list.
    rewrite (first_violation_split fs filepath _ _ _
               (ValueError "Data contains missing order IDs"));
      [reflexivity| |].
    + intros b [<-|[<-|[<-|[]]]]; try assumption.
      unfold violation, path_exists. now rewrite Hf.
    + unfold violation in Hheader. unfold violation, on_column.
      destruct (read_csv fs filepath ["date"]) as [df|e] eqn:Hread;
        [|discriminate].
      destruct (nonempty _) eqn:Hmiss; [discriminate|].
      destruct (filter _ required_columns) as [|c0 cs] eqn:Hfilter;
        [|discriminate].
      assert (Hcol : In "order_id" (columns df)).
      { apply mem_In. apply negb_false_iff.
        apply (filter_nil_all _ _ Hfilter). simpl. tauto. }
      destruct (In_columns_getitem _ _ Hcol) as [ids Hids]. rewrite Hids.
      rewrite (getitem_fields _ _ _ _ _ _ Hf Hread Hne Hids).
      rewrite existsb_isnull_true; [reflexivity|].
      now apply (infer_column_na _ field).
  - intros df H. apply load_data_inl, load_data_try_inl in H.
    destruct H as [Hread V].
    destruct (v_orders df V) as [ids [Hids Hnn]].
    apply not_null_In in Hnn.
    pose proof (getitem_fields _ _ _ _ _ _ Hf Hread Hne Hids) as E.
    split.
    + apply infer_column_present. now rewrite <- E.
    + exists ids. repeat split; try assumption.
      intros Hempty. rewrite E in Hempty.
      apply infer_column_text in Hempty. discriminate.
  - intros df ids k Hids Hk. unfold calculate_kpis in Hk.
    apply bind_inl in Hk. destruct Hk as [amounts [_ Hk]].
    apply bind_inl in Hk. destruct Hk as [sales [_ Hk]].
    rewrite Hids in Hk. simpl in Hk. inversion Hk; subst k. simpl.
    exists (unique (filter notnull ids)). split; [apply NoDup_unique|].
    split; [|reflexivity].
    intros v. now rewrite In_unique, In_filter_notnull.
Qed.

(** C10 as it was stated fails: the file whose only record has an empty
    order id is refused, while the same record under the order id [A] is
    loaded. *)
Lemma empty_order_id_is_refused :
  load_data (only (a_file (order_lines ""))) DATA_FILE_PATH
  = inr [st_error "❌ **Data Validation Error**"
           (ValueError "Data contains missing order IDs")]
  /\ succeeds (load_data (only (a_file (order_lines "A"))) DATA_FILE_PATH).
Proof. split; [reflexivity|]. vm_compute. exact I. Qed.

(* ================================================================== *)
(** * The cache of the loader *)

Lemma cache_data_hit (fs : filesystem) (c : cache) (filepath : string)
  (df : DataFrame) :
  cache_lookup c filepath = Some df ->
  cache_data load_data fs c filepath = (inl df, c).
Proof. intros H. unfold cache_data. now rewrite H. Qed.

Lemma loads_hit (states : list filesystem) (c : cache) (filepath : string)
  (df : DataFrame) :
  cache_lookup c filepath = Some df ->
  loads states c filepath = map (fun _ => inl df) states.
Proof.
  intros H. induction states as [|fs states IH]; simpl; [reflexivity|].
  rewrite (cache_data_hit fs c filepath df H). now rewrite IH.
Qed.

Lemma loads_miss (before : list filesystem) (c : cache) (filepath : string)
  (later : list filesystem) :
  cache_lookup c filepath = None ->
  (forall s, In s before -> is_failure (load_data s filepath)) ->
  loads (before ++ later) c filepath
  = (map (fun s => load_data s filepath) before ++ loads later c filepath)%list.
Proof.
  intros Hc. induction before as [|s before IH]; intros Hfail; simpl;
    [reflexivity|].
  unfold cache_data. rewrite Hc.
  pose proof (Hfail s (or_introl eq_refl)) as Hs.
  destruct (load_data s filepath) as [df|stopped]; [destruct Hs|].
  rewrite IH; [reflexivity|]. intros s' Hs'. apply Hfail. now right.
Qed.

(** C7, as the program has it.  The cache knows the path and nothing of
    the file.  Starting from an empty cache, the calls made while the load
    fails read the file anew; the first call that returns a table stores
    it, and every later call with that path returns this table, whatever
    the file holds by then. *)
Theorem cached_load_keeps_first_table
  (before after : list filesystem) (fs : filesystem) (filepath : string)
  (df : DataFrame) :
  (forall s, In s before -> is_failure (load_data s filepath)) ->
  load_data fs filepath = inl df ->
  loads (before ++ fs :: after) [] filepath
  = (map (fun s => load_data s filepath) before
       ++ inl df :: map (fun _ => inl df) after)%list.
Proof.
  intros Hfail Hload.
  rewrite (loads_miss before [] filepath (fs :: after) eq_refl Hfail).
  f_equal. simpl. unfold cache_data. simpl. rewrite Hload. f_equal.
  apply loads_hit. simpl. now rewrite String.eqb_refl.
Qed.

Lemma cached_load_keeps_first_table_witness :
  loads ([only (a_file (order_lines ""))]
           ++ only (a_file example_lines) :: [only (a_file undated_lines)])
    [] DATA_FILE_PATH
  = (map (fun s => load_data s DATA_FILE_PATH) [only (a_file (order_lines ""))]
       ++ inl example_frame
       :: map (fun _ => inl example_frame) [only (a_file undated_lines)])%list.
Proof.
  apply (cached_load_keeps_first_table
           [only (a_file (order_lines ""))] [only (a_file undated_lines)]
           (only (a_file example_lines)) DATA_FILE_PATH example_frame).
  - intros s [<-|[]]. vm_compute. exact I.
  - vm_compute. reflexivity.
Defined.

(** C7 as it was stated fails: the file is replaced between two calls, and
    the second call returns the table of the file that is gone. *)
Lemma cached_load_is_stale :
  loads [only (a_file example_lines); only (a_file undated_lines)]
    [] DATA_FILE_PATH
  = [inl example_frame; inl example_frame]
  /\ load_data (only (a_file undated_lines)) DATA_FILE_PATH = inl undated_frame
  /\ example_frame <> undated_frame.
Proof. repeat split; try reflexivity. discriminate. Qed.

(* ================================================================== *)
(** * The page of a run *)

Lemma load_data_stopped_no_chart (fs : filesystem) (filepath : string)
  (stopped : list element) :
  load_data fs filepath = inr stopped -> filter is_chart stopped = [].
Proof.
  unfold load_data.
  destruct (load_data_try fs filepath) as [df|[]]; intros H;
    inversion H; reflexivity.
Qed.

Lemma main_on_frame_charts (df : DataFrame) (c' : cache) (p : page * cache) :
  p = match calculate_kpis df with
      | inr e => ({| shown := [st_title "📊 ShopSmart Sales Dashboard"];
                     uncaught := Some e |}, c')
      | inl k =>
          match format_currency (total_sales k) with
          | inr e =>
              ({| shown := ([st_title "📊 ShopSmart Sales Dashboard"]
                              ++ [st_columns 2])%list;
                  uncaught := Some e |}, c')
          | inl sales =>
              let cards :=
                ([st_title "📊 ShopSmart Sales Dashboard"]
                   ++ [st_columns 2;
                       st_metric "Total Sales" sales;
                       st_metric "Total Orders"
                         (format_grouped (Z.of_nat (total_orders k)))])%list in
              match create_sales_trend_chart df with
              | inr e => ({| shown := cards; uncaught := Some e |}, c')
              | inl trend =>
                  let upper :=
                    (cards ++ [st_plotly_chart trend true; st_columns 2])%list in
                  match create_category_chart df with
                  | inr e => ({| shown := upper; uncaught := Some e |}, c')
                  | inl by_category =>
                      ({| shown := (upper ++ [st_plotly_chart by_category true])%list;
                          uncaught := None |}, c')
                  end
              end
          end
      end ->
  (charts_shown (fst p) <= 2)%nat /\ snd p = c'.
Proof.
  intros ->. unfold charts_shown.
  destruct (calculate_kpis df) as [k|]; [|simpl; split; [lia|reflexivity]].
  destruct (format_currency (total_sales k));
    [|simpl; split; [lia|reflexivity]].
  destruct (create_sales_trend_chart df); [|simpl; split; [lia|reflexivity]].
  destruct (create_category_chart df); simpl; split; lia || reflexivity.
Qed.

(** No run shows more than two charts. *)
Lemma main_at_most_two_charts (fs : filesystem) (c : cache) :
  (charts_shown (fst (main fs c)) <= 2)%nat.
Proof.
  unfold main, cache_data.
  destruct (cache_lookup c DATA_FILE_PATH) as [df|].
  - now apply (main_on_frame_charts df c).
  - destruct (load_data fs DATA_FILE_PATH) as [df|stopped] eqn:E.
    + now apply (main_on_frame_charts df ((DATA_FILE_PATH, df) :: c)).
    + unfold charts_shown. simpl.
      rewrite (load_data_stopped_no_chart _ _ _ E). simpl. lia.
Qed.

(* ================================================================== *)
(** * A run on a table that was let through *)

Lemma daily_sales_validated (df : DataFrame) :
  validated df ->
  exists dates amounts daily,
    getitem df "date" = inl dates /\
    getitem df "total_amount" = inl amounts /\
    positive_amounts amounts /\
    List.length dates = List.length amounts /\
    daily_sales df = inl daily /\
    map fst daily = group_keys dates /\
    (forall zs, amounts = map Int zs ->
       daily = map (fun k => (k, Int (wrap64 (amount_under k dates zs))))
                 (group_keys dates)) /\
    (forall xs, xs <> [] -> amounts = map Float xs ->
       daily = map (fun k => (k, Float (group_sum (floats_under k dates xs))))
                 (group_keys dates)).
Proof.
  intros V.
  destruct (v_amounts df V) as [amounts [Ha Hpos]].
  destruct (In_columns_getitem df "date") as [dates Hd].
  { apply (v_columns df V). simpl. tauto. }
  pose proof (validated_lengths df _ _ _ _ V Hd Ha) as Hlen.
  destruct (groupby_sum_positive dates amounts Hpos Hlen)
    as [daily [Hs [Hk [Hi Hf]]]].
  exists dates, amounts, daily. repeat split; try assumption.
  unfold daily_sales. rewrite Hd, Ha. simpl. assumption.
Qed.

Lemma format_currency_number (sales : value) (s : Series) :
  sales = Int (wrap64 (int_sum s))
  \/ sales = Float (float_sum (map to_float s)) ->
  exists text, format_currency sales = inl text.
Proof. intros [->| ->]; unfold format_currency, ret; eauto. Qed.

(** The page of a run that has its table. *)
Lemma main_on_validated (fs : filesystem) (c c' : cache) (df : DataFrame) :
  validated df ->
  cache_data load_data fs c DATA_FILE_PATH = (inl df, c') ->
  exists sales orders trend by_category,
    main fs c
    = ({| shown := [st_title "📊 ShopSmart Sales Dashboard";
                    st_columns 2;
                    st_metric "Total Sales" sales;
                    st_metric "Total Orders" orders;
                    st_plotly_chart trend true;
                    st_columns 2;
                    st_plotly_chart by_category true];
          uncaught := None |}, c') /\
    create_sales_trend_chart df = inl trend /\
    create_category_chart df = inl by_category.
Proof.
  intros V Hc. unfold main. rewrite Hc.
  destruct (calculate_kpis_validated df V)
    as [amounts [ids [sales [_ [_ [_ [_ [_ [Hkind ->]]]]]]]]].
  destruct (format_currency_number sales amounts Hkind) as [text Ht].
  cbn [total_sales total_orders]. rewrite Ht.
  destruct (daily_sales_validated df V)
    as [ds [zs [daily [_ [_ [_ [_ [Hd _]]]]]]]].
  destruct (category_sales_validated df V)
    as [cats [zs' [sums [_ [_ [_ [_ [_ [_ [_ [_ Hs]]]]]]]]]]].
  unfold create_sales_trend_chart, create_category_chart.
  rewrite Hd, Hs. cbn [bind ret].
  eexists _, _, _, _. split; [reflexivity|]. split; reflexivity.
Qed.

Lemma chart_titles (df : DataFrame) (trend by_category : Figure) :
  create_sales_trend_chart df = inl trend ->
  create_category_chart df = inl by_category ->
  kind trend = Line /\ fig_title trend = "Sales Trend Over Time" /\
  kind by_category = Bar /\
  fig_title by_category = "Sales by Product Category".
Proof.
  unfold create_sales_trend_chart, create_category_chart.
  destruct (daily_sales df); simpl; [|discriminate].
  destruct (category_sales df); simpl; [|discriminate].
  intros H1 H2. inversion H1. inversion H2. simpl. repeat split.
Qed.

(** C8, at a file that is loaded: the run shows the title, the two KPI
    cards and two charts, the trend by date and the sums by category; the
    second column of the lower row stays empty, and no run shows a third
    chart. *)
Theorem main_shows_two_charts :
  metrics_shown (fst (main (only (a_file example_lines)) [])) = 2%nat /\
  charts_shown (fst (main (only (a_file example_lines)) [])) = 2%nat /\
  map (fun e => match e with
                | st_plotly_chart fig _ => fig_title fig
                | st_title _ => "title"
                | st_error _ _ => "error"
                | st_columns _ => "columns"
                | st_metric label _ => label
                end)
      (shown (fst (main (only (a_file example_lines)) [])))
  = ["title"; "columns"; "Total Sales"; "Total Orders";
     "Sales Trend Over Time"; "columns"; "Sales by Product Category"] /\
  forall fs c, (charts_shown (fst (main fs c)) <= 2)%nat.
Proof.
  assert (Hload : load_data (only (a_file example_lines)) DATA_FILE_PATH
                  = inl example_frame) by (vm_compute; reflexivity).
  destruct (main_on_validated (only (a_file example_lines)) []
              [(DATA_FILE_PATH, example_frame)] example_frame)
    as [sales [orders [trend [by_category [Hmain [Ht Hc]]]]]].
  { eapply load_data_validated; eauto. }
  { unfold cache_data. cbn [cache_lookup]. now rewrite Hload. }
  destruct (chart_titles _ _ _ Ht Hc) as [_ [Htt [_ Htc]]].
  rewrite Hmain. unfold metrics_shown, charts_shown. simpl.
  rewrite Htt, Htc.
  repeat split; try reflexivity. apply main_at_most_two_charts.
Qed.

(** A run that loads its table ends without an exception, whatever the
    cache of validated tables it starts from, and leaves such a cache. *)
Lemma cache_data_outcome (fs : filesystem) (c c' : cache) (filepath : string)
  (r : DataFrame + list element) :
  cache_ok c ->
  cache_data load_data fs c filepath = (r, c') ->
  cache_ok c' /\
  match r with
  | inl df => validated df
  | inr stopped => exists e, stopped = [st_error (heading_of e) e]
  end.
Proof.
  intros Hok. unfold cache_data.
  destruct (cache_lookup c filepath) as [df|] eqn:Hl.
  - intros E. inversion E; subst. split; [assumption|]. eapply Hok; eauto.
  - destruct (load_data fs filepath) as [df|stopped] eqn:Hload;
      intros E; inversion E; subst.
    + pose proof (load_data_validated _ _ _ Hload) as V.
      split; [|assumption].
      intros key df' H. cbn [cache_lookup] in H.
      destruct (String.eqb filepath key).
      * inversion H; subst; assumption.
      * eapply Hok; eauto.
    + split; [assumption|]. unfold load_data in Hload.
      destruct (load_data_try fs filepath) as [df|e]; [discriminate|].
      exists e. destruct e; inversion Hload; reflexivity.
Qed.

Lemma main_page (fs : filesystem) (c : cache) :
  cache_ok c ->
  cache_ok (snd (main fs c)) /\
  uncaught (fst (main fs c)) = None /\
  (error_page (fst (main fs c)) \/ dashboard_page (fst (main fs c))).
Proof.
  intros Hok.
  destruct (cache_data load_data fs c DATA_FILE_PATH) as [r c'] eqn:E.
  destruct (cache_data_outcome fs c c' _ r Hok E) as [Hok' Hr].
  destruct r as [df|stopped].
  - destruct (main_on_validated fs c c' df Hr E)
      as [sales [orders [trend [by_category [Hmain [Ht Hc]]]]]].
    destruct (chart_titles _ _ _ Ht Hc) as [Hkt [_ [Hkc _]]].
    rewrite Hmain. simpl. split; [assumption|]. split; [reflexivity|].
    right. exists sales, orders, trend, by_category. now repeat split.
  - destruct Hr as [e ->]. unfold main. rewrite E. simpl.
    split; [assumption|]. split; [reflexivity|]. left.
    now exists (heading_of e), e.
Qed.

(* ================================================================== *)
(** * The outcomes of the loader *)



(** The amounts of that file are no integers, and its table is let
    through. *)
Example decimal_table :
  load_data (only (a_file decimal_lines)) DATA_FILE_PATH = inl decimal_frame /\
  exists a b c,
    getitem decimal_frame "total_amount" = inl [Float a; Float b; Float c].
Proof. split; [vm_compute; reflexivity|]. eexists _, _, _. reflexivity. Qed.

Lemma le_scalar_inr (s : Series) (k : Z) (e : exn) :
  le_scalar s k = inr e -> e = TypeError.
Proof.
  induction s as [|v s IH]; simpl; [discriminate|].
  destruct v; simpl; try (intros H; now inversion H);
    destruct (le_scalar s k); simpl; try discriminate;
    intros H; apply IH; assumption.
Qed.

Lemma lt_scalar_inr (s : Series) (k : Z) (e : exn) :
  lt_scalar s k = inr e -> e = TypeError.
Proof.
  induction s as [|v s IH]; simpl; [discriminate|].
  destruct v; simpl; try (intros H; now inversion H);
    destruct (lt_scalar s k); simpl; try discriminate;
    intros H; apply IH; assumption.
Qed.

Lemma strings_of_inr (s : Series) (e : exn) :
  strings_of s = inr e -> e = TypeError.
Proof.
  induction s as [|v s IH]; simpl; [discriminate|].
  destruct v; try (intros H; now inversion H).
  destruct (strings_of s); simpl; [discriminate|].
  intros H. apply IH. assumption.
Qed.

Lemma read_csv_inr (fs : filesystem) (filepath : string) (pd : list string)
  (f : csv) (e : exn) :
  fs filepath = Some (File f) -> read_csv fs filepath pd = inr e ->
  exists msg, e = ValueError msg.
Proof.
  intros Hf. unfold read_csv. rewrite Hf.
  destruct (nonempty (header f)); walk; [|intros H; inversion H; eauto].
  destruct (nonempty (filter _ pd)); walk; intros H; inversion H; eauto.
Qed.

Lemma required_getitem (df : DataFrame) (c : string) :
  nonempty (filter (fun col => negb (mem col (columns df))) required_columns)
  = false ->
  In c required_columns -> exists s, getitem df c = inl s.
Proof.
  intros H Hc. apply In_columns_getitem, mem_In.
  destruct (filter _ required_columns) eqn:E; [|discriminate].
  apply negb_false_iff. apply (filter_nil_all _ _ E). assumption.
Qed.

(** The exceptions the [try] block can end with. *)
Lemma load_data_try_inr (fs : filesystem) (filepath : string) (e : exn) :
  load_data_try fs filepath = inr e ->
  match fs filepath with
  | None => e = FileNotFoundError (not_found_message filepath)
  | Some (Unreadable e') => e = e'
  | Some (File _) => (exists msg, e = ValueError msg) \/ e = TypeError
  end.
Proof.
  unfold load_data_try, path_exists.
  destruct (fs filepath) as [[f|e']|] eqn:Hf; walk.
  3:{ intros H. now inversion H. }
  2:{ unfold read_csv. rewrite Hf. walk. intros H. now inversion H. }
  destruct (read_csv fs filepath ["date"]) as [df|e0] eqn:Hread; walk.
  2:{ intros H. inversion H; subst. left. eapply read_csv_inr; eauto. }
  destruct (nonempty (filter (fun col => negb (mem col (columns df)))
                        required_columns)) eqn:Hcols; walk.
  { intros H. inversion H. left. eauto. }
  destruct (required_getitem df "total_amount" Hcols) as [amounts ->];
    [simpl; tauto|].
  destruct (required_getitem df "order_id" Hcols) as [ids ->];
    [simpl; tauto|].
  destruct (required_getitem df "quantity" Hcols) as [qs ->];
    [simpl; tauto|].
  destruct (required_getitem df "category" Hcols) as [cats ->];
    [simpl; tauto|].
  destruct (required_getitem df "region" Hcols) as [regs ->];
    [simpl; tauto|].
  walk.
  destruct (any (map isnull amounts)); walk.
  { intros H. inversion H. left. eauto. }
  destruct (any (map isnull ids)); walk.
  { intros H. inversion H. left. eauto. }
  destruct (le_scalar amounts 0) as [m|e1] eqn:Hm; walk.
  2:{ intros H. inversion H; subst. right. eapply le_scalar_inr; eauto. }
  destruct (any m); walk.
  { intros H. inversion H. left. eauto. }
  destruct (lt_scalar qs 1) as [m'|e1] eqn:Hm'; walk.
  2:{ intros H. inversion H; subst. right. eapply lt_scalar_inr; eauto. }
  destruct (any m'); walk.
  { intros H. inversion H. left. eauto. }
  destruct (0 <? List.length (invalid_values valid_categories cats))%nat.
  { destruct (strings_of _) as [names|e1] eqn:Hs; walk;
      intros H; inversion H; subst; [left; eauto|].
    right. eapply strings_of_inr; eauto. }
  walk.
  destruct (0 <? List.length (invalid_values valid_regions regs))%nat.
  { destruct (strings_of _) as [names|e1] eqn:Hs; walk;
      intros H; inversion H; subst; [left; eauto|].
    right. eapply strings_of_inr; eauto. }
  walk. discriminate.
Qed.

(** X2.  A load that fails shows one error box, under the heading of the
    [except] clause that catches the exception.  With nothing at the path,
    the exception is the [FileNotFoundError] whose message names the path
    (data loading error).  With a delimited file at the path, it is a
    [ValueError] (data validation error) or a [TypeError] (unexpected
    error), and never a [KeyError]: no column is looked up before the
    check of the header has passed.  With something at the path that
    [read_csv] cannot read, a directory for one, it is the exception
    [read_csv] raised. *)
Theorem load_data_failure_kinds
  (fs : filesystem) (filepath : string) (stopped : list element) :
  load_data fs filepath = inr stopped ->
  exists e,
    load_data_try fs filepath = inr e /\
    stopped = [st_error (heading_of e) e] /\
    match fs filepath with
    | None => e = FileNotFoundError (not_found_message filepath)
    | Some (Unreadable e') => e = e'
    | Some (File _) => (exists msg, e = ValueError msg) \/ e = TypeError
    end.
Proof.
  unfold load_data.
  destruct (load_data_try fs filepath) as [df|e] eqn:E; [discriminate|].
  intros H. exists e. split; [reflexivity|]. split.
  - destruct e; inversion H; reflexivity.
  - now apply load_data_try_inr.
Qed.

Lemma load_data_failure_kinds_witness :
  exists e,
    load_data_try a_directory DATA_FILE_PATH = inr e /\
    [st_error unexpected_error
       (OtherError "IsADirectoryError"
          ("[Errno 21] Is a directory: '" ++ DATA_FILE_PATH ++ "'"))]
    = [st_error (heading_of e) e] /\
    match a_directory DATA_FILE_PATH with
    | None => e = FileNotFoundError (not_found_message DATA_FILE_PATH)
    | Some (Unreadable e') => e = e'
    | Some (File _) => (exists msg, e = ValueError msg) \/ e = TypeError
    end.
Proof.
  apply (load_data_failure_kinds a_directory DATA_FILE_PATH).
  reflexivity.
Defined.

(** The error box of a machine without the file. *)
Example no_file_message :
  load_data no_file DATA_FILE_PATH
  = inr [st_error loading_error
           (FileNotFoundError (not_found_message DATA_FILE_PATH))].
Proof. reflexivity. Qed.

(** X3.  When the file is there and has the [date] column but not all of
    the eight columns, the load fails with the data validation error whose
    message names the columns that are missing, all of them and no other,
    in the order of the list of required columns. *)
Theorem missing_columns_are_named
  (fs : filesystem) (filepath : string) (f : csv) :
  fs filepath = Some (File f) ->
  In "date" (header f) ->
  filter (fun c => negb (mem c (header f))) required_columns <> [] ->
  load_data fs filepath
  = inr [st_error validation_error
           (ValueError
              ("CSV is missing required columns: "
               ++ join ", "
                    (filter (fun c => negb (mem c (header f)))
                       required_columns)))].
Proof.
  intros Hf Hdate Hmissing.
  unfold load_data, load_data_try, path_exists. rewrite Hf.
  rewrite (read_csv_ok fs filepath ["date"] f Hf).
  2:{ intros E. rewrite E in Hdate. destruct Hdate. }
  2:{ intros c [<-|[]]. assumption. }
  walk. rewrite read_columns_names.
  destruct (filter (fun c => negb (mem c (header f))) required_columns)
    as [|c0 cs] eqn:E; [congruence|].
  reflexivity.
Qed.

Lemma missing_columns_are_named_witness :
  load_data (only short_header_file) DATA_FILE_PATH
  = inr [st_error validation_error
           (ValueError
              ("CSV is missing required columns: "
               ++ join ", "
                    (filter (fun c => negb (mem c (header short_header_file)))
                       required_columns)))].
Proof.
  apply (missing_columns_are_named (only short_header_file) DATA_FILE_PATH
           short_header_file).
  - reflexivity.
  - simpl. tauto.
  - discriminate.
Defined.

(** The message for that file. *)
Example missing_columns_message :
  load_data (only short_header_file) DATA_FILE_PATH
  = inr [st_error validation_error
           (ValueError
              "CSV is missing required columns: unit_price, total_amount")].
Proof. reflexivity. Qed.

(* ================================================================== *)
(** * The checks of the category and of the region *)

Lemma header_check_passed (fs : filesystem) (filepath : string) :
  violation fs filepath HeaderColumns = None ->
  exists df,
    read_csv fs filepath ["date"] = inl df /\
    forall c, In c required_columns -> exists s, getitem df c = inl s.
Proof.
  unfold violation.
  destruct (read_csv fs filepath ["date"]) as [df|e]; [|discriminate].
  intros H. exists df. split; [reflexivity|].
  intros c Hc. apply required_getitem; [|assumption].
  destruct (nonempty _); [discriminate|reflexivity].
Qed.

Lemma nonempty_In {A : Type} (a : A) (l : list A) :
  In a l -> nonempty l = true.
Proof. destruct l; simpl; [tauto|reflexivity]. Qed.

Lemma strings_of_missing (s : Series) :
  In NaN s -> strings_of s = inr TypeError.
Proof.
  induction s as [|v s IH]; simpl; [tauto|].
  intros [->|H]; [reflexivity|].
  destruct v; try reflexivity. now rewrite (IH H).
Qed.

Lemma In_invalid_values (allowed : list string) (s : Series) (v : value) :
  In v (invalid_values allowed s) <-> In v s /\ isin allowed v = false.
Proof.
  unfold invalid_values. rewrite select_map, In_unique, filter_In.
  now rewrite negb_true_iff.
Qed.

Lemma outside_enum_missing (allowed : list string) (what : string)
  (s : Series) :
  In NaN s -> outside_enum allowed what s = Some TypeError.
Proof.
  intros H. unfold outside_enum.
  assert (Hbad : In NaN (invalid_values allowed s)).
  { apply In_invalid_values. now split. }
  rewrite (nonempty_In _ _ Hbad). now rewrite (strings_of_missing _ Hbad).
Qed.

Lemma load_data_first_violation (fs : filesystem) (filepath : string)
  (before after : list check) (c : check) (e : exn) :
  validation_order = (before ++ c :: after)%list ->
  (forall b, In b before -> violation fs filepath b = None) ->
  violation fs filepath c = Some e ->
  load_data_try fs filepath = inr e.
Proof.
  intros Horder Hb Hc. rewrite load_data_try_in_order. unfold load_in_order.
  rewrite Horder. now rewrite (first_violation_split _ _ _ _ _ e Hb Hc).
Qed.

Lemma file_check_passed (fs : filesystem) (filepath : string) (f : csv) :
  fs filepath = Some (File f) -> violation fs filepath FileExists = None.
Proof. intros Hf. unfold violation, path_exists. now rewrite Hf. Qed.

(** X4.  A record without a category does not get the message of the
    invalid categories: once the checks before it have passed, the load
    fails with the unexpected error of a [TypeError], the missing value
    being no text that the message could join.  The same holds for a
    record without a region, once the categories have passed too. *)
Theorem missing_category_or_region_is_unexpected
  (fs : filesystem) (filepath : string) (f : csv) :
  fs filepath = Some (File f) ->
  (forall b, In b [HeaderColumns; AmountPresent; OrderIdPresent;
                   AmountPositive; QuantityAtLeastOne] ->
             violation fs filepath b = None) ->
  ((exists field, In field (fields_of f "category") /\ is_na field = true) ->
   load_data fs filepath = inr [st_error unexpected_error TypeError]) /\
  (violation fs filepath CategoryInEnum = None ->
   (exists field, In field (fields_of f "region") /\ is_na field = true) ->
   load_data fs filepath = inr [st_error unexpected_error TypeError]).
Proof.
  intros Hf Hbefore.
  destruct (header_check_passed fs filepath) as [df [Hread Hget]].
  { apply Hbefore. simpl. tauto. }
  assert (Hcol : forall c what allowed,
            In c required_columns -> c <> "date" ->
            (exists field, In field (fields_of f c) /\ is_na field = true) ->
            on_column fs filepath c (outside_enum allowed what)
            = Some TypeError).
  { intros c what allowed Hc Hdate [field [Hin Hna]].
    unfold on_column. rewrite Hread.
    destruct (Hget c Hc) as [s Hs]. rewrite Hs.
    apply outside_enum_missing.
    rewrite (getitem_fields _ _ _ _ _ _ Hf Hread Hdate Hs).
    now apply (infer_column_na _ field). }
  split.
  - intros Hna. unfold load_data.
    rewrite (load_data_first_violation fs filepath
               [FileExists; HeaderColumns; AmountPresent; OrderIdPresent;
                AmountPositive; QuantityAtLeastOne]
               [RegionInEnum] CategoryInEnum TypeError); try reflexivity.
    + intros b [<-|Hb]; [now apply (file_check_passed _ _ f)|].
      now apply Hbefore.
    + apply Hcol; [simpl; tauto|discriminate|assumption].
  - intros Hcat Hna. unfold load_data.
    rewrite (load_data_first_violation fs filepath
               [FileExists; HeaderColumns; AmountPresent; OrderIdPresent;
                AmountPositive; QuantityAtLeastOne; CategoryInEnum]
               [] RegionInEnum TypeError); try reflexivity.
    + intros b [<-|Hb]; [now apply (file_check_passed _ _ f)|].
      simpl in Hb.
      destruct Hb as [<-|[<-|[<-|[<-|[<-|[<-|[]]]]]]];
        try assumption; apply Hbefore; simpl; tauto.
    + apply Hcol; [simpl; tauto|discriminate|assumption].
Qed.

Lemma missing_category_or_region_is_unexpected_witness :
  load_data (only (a_file (place_lines "" "North"))) DATA_FILE_PATH
  = inr [st_error unexpected_error TypeError] /\
  load_data (only (a_file (place_lines "Audio" ""))) DATA_FILE_PATH
  = inr [st_error unexpected_error TypeError].
Proof.
  split.
  - apply (proj1 (missing_category_or_region_is_unexpected
                    (only (a_file (place_lines "" "North"))) DATA_FILE_PATH
                    (a_file (place_lines "" "North")) eq_refl
                    ltac:(intros b Hb; simpl in Hb;
                          repeat (destruct Hb as [<-|Hb]; [reflexivity|]);
                          destruct Hb))).
    exists "". split; [simpl; tauto|reflexivity].
  - apply (proj2 (missing_category_or_region_is_unexpected
                    (only (a_file (place_lines "Audio" ""))) DATA_FILE_PATH
                    (a_file (place_lines "Audio" "")) eq_refl
                    ltac:(intros b Hb; simpl in Hb;
                          repeat (destruct Hb as [<-|Hb]; [reflexivity|]);
                          destruct Hb))).
    + reflexivity.
    + exists "". split; [simpl; tauto|reflexivity].
Defined.

Lemma text_values (l : Series) :
  (forall v, In v l -> exists t, v = Str t) -> exists names, l = map Str names.
Proof.
  induction l as [|v l IH]; intros H.
  - now exists [].
  - destruct (H v (or_introl eq_refl)) as [t ->].
    destruct IH as [names ->]; [intros w Hw; apply H; now right|].
    now exists (t :: names).
Qed.

Lemma strings_of_text (names : list string) :
  strings_of (map Str names) = inl names.
Proof.
  induction names as [|t names IH]; simpl; [reflexivity|]. now rewrite IH.
Qed.

Lemma In_map_Str (c : string) (names : list string) :
  In (Str c) (map Str names) <-> In c names.
Proof.
  rewrite in_map_iff. split.
  - intros [t [E Ht]]. now inversion E; subst.
  - intros H. now exists c.
Qed.

(** The values outside the set, when the column holds text only. *)
Lemma invalid_values_text (allowed cats : list string) :
  exists names,
    invalid_values allowed (map Str cats) = map Str names /\
    NoDup names /\
    forall c, In c names <-> In c cats /\ ~ In c allowed.
Proof.
  destruct (text_values (invalid_values allowed (map Str cats)))
    as [names Hnames].
  { intros v Hv. apply In_invalid_values in Hv. destruct Hv as [Hv _].
    apply in_map_iff in Hv. destruct Hv as [t [<- _]]. now exists t. }
  exists names. split; [assumption|]. split.
  - apply (NoDup_map_inv Str). rewrite <- Hnames.
    unfold invalid_values. apply NoDup_unique.
  - intros c. rewrite <- In_map_Str, <- Hnames, In_invalid_values, In_map_Str.
    simpl. rewrite <- (mem_In c allowed).
    destruct (mem c allowed); intuition congruence.
Qed.

(** X5.  When the checks before it have passed and the categories are all
    text, a category outside the set makes the load fail with the data
    validation error of the invalid categories, and the message lists the
    names outside the set that occur in the table, each of them once.
    The regions are treated alike once the categories have passed. *)
Theorem invalid_names_are_listed_once
  (fs : filesystem) (filepath : string) (df : DataFrame) :
  read_csv fs filepath ["date"] = inl df ->
  (forall b, In b [HeaderColumns; AmountPresent; OrderIdPresent;
                   AmountPositive; QuantityAtLeastOne] ->
             violation fs filepath b = None) ->
  (forall cats,
     getitem df "category" = inl (map Str cats) ->
     (exists c, In c cats /\ ~ In c valid_categories) ->
     exists names,
       load_data fs filepath
       = inr [st_error validation_error
                (ValueError ("Data contains invalid categories: "
                             ++ join ", " names))] /\
       NoDup names /\
       forall c, In c names <-> In c cats /\ ~ In c valid_categories) /\
  (forall regs,
     violation fs filepath CategoryInEnum = None ->
     getitem df "region" = inl (map Str regs) ->
     (exists r, In r regs /\ ~ In r valid_regions) ->
     exists names,
       load_data fs filepath
       = inr [st_error validation_error
                (ValueError ("Data contains invalid regions: "
                             ++ join ", " names))] /\
       NoDup names /\
       forall r, In r names <-> In r regs /\ ~ In r valid_regions).
Proof.
  intros Hread Hbefore.
  assert (Hfile : violation fs filepath FileExists = None).
  { apply read_csv_inl in Hread. destruct Hread as [f [Hf _]].
    now apply (file_check_passed _ _ f). }
  assert (Hcol : forall c what allowed names0,
            getitem df c = inl (map Str names0) ->
            (exists n, In n names0 /\ ~ In n allowed) ->
            exists names,
              on_column fs filepath c (outside_enum allowed what)
              = Some (ValueError (what ++ join ", " names)) /\
              NoDup names /\
              forall n, In n names <-> In n names0 /\ ~ In n allowed).
  { intros c what allowed names0 Hs [n [Hn Hout]].
    destruct (invalid_values_text allowed names0) as [names [E [Hnd Hiff]]].
    exists names. split; [|now split].
    unfold on_column, outside_enum. rewrite Hread, Hs, E.
    assert (Hne : nonempty (map Str names) = true).
    { apply (nonempty_In (Str n)). apply In_map_Str. now apply Hiff. }
    now rewrite Hne, strings_of_text. }
  split.
  - intros cats Hcats Hout.
    destruct (Hcol "category" "Data contains invalid categories: "
                valid_categories cats Hcats Hout) as [names [Hv [Hnd Hiff]]].
    exists names. split; [|now split].
    unfold load_data.
    rewrite (load_data_first_violation fs filepath
               [FileExists; HeaderColumns; AmountPresent; OrderIdPresent;
                AmountPositive; QuantityAtLeastOne]
               [RegionInEnum] CategoryInEnum
               (ValueError ("Data contains invalid categories: "
                            ++ join ", " names)) eq_refl);
      [reflexivity| |exact Hv].
    intros b [<-|Hb]; [assumption|now apply Hbefore].
  - intros regs Hcat Hregs Hout.
    destruct (Hcol "region" "Data contains invalid regions: "
                valid_regions regs Hregs Hout) as [names [Hv [Hnd Hiff]]].
    exists names. split; [|now split].
    unfold load_data.
    rewrite (load_data_first_violation fs filepath
               [FileExists; HeaderColumns; AmountPresent; OrderIdPresent;
                AmountPositive; QuantityAtLeastOne; CategoryInEnum]
               [] RegionInEnum
               (ValueError ("Data contains invalid regions: "
                            ++ join ", " names)) eq_refl);
      [reflexivity| |exact Hv].
    intros b [<-|Hb]; [assumption|].
    simpl in Hb.
    destruct Hb as [<-|[<-|[<-|[<-|[<-|[<-|[]]]]]]];
      try assumption; apply Hbefore; simpl; tauto.
Qed.

Ltac checks_pass :=
  let b := fresh "b" in
  let Hb := fresh "Hb" in
  intros b Hb; simpl in Hb;
  repeat (destruct Hb as [<-|Hb]; [reflexivity|]); destruct Hb.

Lemma invalid_names_are_listed_once_witness :
  (exists names,
     load_data (only (a_file garden_lines)) DATA_FILE_PATH
     = inr [st_error validation_error
              (ValueError ("Data contains invalid categories: "
                           ++ join ", " names))] /\
     NoDup names /\
     forall c, In c names <->
               In c ["Garden"; "Audio"; "Garden"; "Toys"] /\
               ~ In c valid_categories) /\
  (exists names,
     load_data (only (a_file (place_lines "Audio" "Up"))) DATA_FILE_PATH
     = inr [st_error validation_error
              (ValueError ("Data contains invalid regions: "
                           ++ join ", " names))] /\
     NoDup names /\
     forall r, In r names <-> In r ["Up"] /\ ~ In r valid_regions).
Proof.
  split.
  - apply (proj1 (invalid_names_are_listed_once
                    (only (a_file garden_lines)) DATA_FILE_PATH
                    (read_frame (a_file garden_lines)) eq_refl
                    ltac:(checks_pass))).
    + reflexivity.
    + exists "Garden". split; [simpl; tauto|].
      simpl. intros H. decompose [or] H; discriminate || assumption.
  - apply (proj2 (invalid_names_are_listed_once
                    (only (a_file (place_lines "Audio" "Up"))) DATA_FILE_PATH
                    (read_frame (a_file (place_lines "Audio" "Up"))) eq_refl
                    ltac:(checks_pass))).
    + reflexivity.
    + reflexivity.
    + exists "Up". split; [simpl; tauto|].
      simpl. intros H. decompose [or] H; discriminate || assumption.
Defined.

(** The message for the four records: the two names, in the order in which
    the table has them first. *)
Example invalid_categories_message :
  load_data (only (a_file garden_lines)) DATA_FILE_PATH
  = inr [st_error validation_error
           (ValueError "Data contains invalid categories: Garden, Toys")].
Proof. reflexivity. Qed.

(* ================================================================== *)
(** * What each group holds *)






(* ================================================================== *)
(** * The cards and the order of the records *)

Lemma series_sum_perm (s s' : Series) :
  forallb is_int s = true ->
  Permutation s s' -> series_sum s = series_sum s'.
Proof.
  intros Hint H. unfold series_sum.
  rewrite <- (dtype_of_perm _ _ H). unfold dtype_of. rewrite Hint.
  now rewrite (int_sum_perm _ _ H).
Qed.

Lemma nunique_perm (s s' : Series) :
  Permutation s s' -> nunique s = nunique s'.
Proof.
  intros H. unfold nunique. apply Permutation_length.
  apply NoDup_Permutation; try apply NoDup_unique.
  intros v. rewrite !In_unique, !In_filter_notnull.
  split; intros [Hin Hn]; split; try assumption.
  - now apply (Permutation_in _ H).
  - now apply (Permutation_in _ (Permutation_sym H)).
Qed.

(** X8.  With amounts that are integers, [calculate_kpis] does not depend
    on the order of the records: two frames whose [total_amount] columns
    hold the same cells in another order, and whose [order_id] columns do,
    get the same cards. *)
Theorem calculate_kpis_order_independent
  (df df' : DataFrame) (amounts amounts' ids ids' : Series) :
  getitem df "total_amount" = inl amounts ->
  getitem df' "total_amount" = inl amounts' ->
  getitem df "order_id" = inl ids ->
  getitem df' "order_id" = inl ids' ->
  forallb is_int amounts = true ->
  Permutation amounts amounts' ->
  Permutation ids ids' ->
  calculate_kpis df' = calculate_kpis df.
Proof.
  intros Ha Ha' Hi Hi' Hint Pa Pi. unfold calculate_kpis.
  rewrite Ha, Ha', Hi, Hi'. simpl.
  rewrite (series_sum_perm _ _ Hint Pa), (nunique_perm _ _ Pi). reflexivity.
Qed.

(* ================================================================== *)
(** * Runs, one after the other *)

Lemma main_cache (fs : filesystem) (c c' : cache)
  (r : DataFrame + list element) :
  cache_data load_data fs c DATA_FILE_PATH = (r, c') ->
  snd (main fs c) = c'.
Proof.
  intros E. unfold main. rewrite E. destruct r as [df|stopped];
    [|reflexivity].
  now apply (main_on_frame_charts df c').
Qed.

Lemma main_of_load (fs fs' : filesystem) (c c' : cache) :
  cache_data load_data fs c DATA_FILE_PATH
  = cache_data load_data fs' c' DATA_FILE_PATH ->
  main fs c = main fs' c'.
Proof. intros E. unfold main. now rewrite E. Qed.

Lemma cache_data_again (fs : filesystem) (c c' : cache) (filepath : string)
  (r : DataFrame + list element) :
  cache_data load_data fs c filepath = (r, c') ->
  cache_data load_data fs c' filepath = (r, c').
Proof.
  unfold cache_data.
  destruct (cache_lookup c filepath) as [df|] eqn:Hl.
  - intros E. inversion E; subst. now rewrite Hl.
  - destruct (load_data fs filepath) as [df|stopped] eqn:Hload;
      intros E; inversion E; subst.
    + simpl. now rewrite String.eqb_refl.
    + now rewrite Hl.
Qed.

(** X10.  Running the script once more on the same files shows the same
    page and leaves the cache as the run before left it, whether that run
    loaded the table, found it in the cache or was stopped. *)
Theorem rerun_shows_the_same_page (fs : filesystem) (c : cache) :
  main fs (snd (main fs c)) = (fst (main fs c), snd (main fs c)).
Proof.
  destruct (cache_data load_data fs c DATA_FILE_PATH) as [r c'] eqn:E.
  pose proof (main_cache fs c c' r E) as Hc.
  assert (Hagain : main fs c' = main fs c).
  { apply main_of_load. rewrite E. apply (cache_data_again fs c c' _ r E). }
  rewrite Hc, Hagain, <- Hc. now destruct (main fs c).
Qed.

Lemma runs_pages (states : list filesystem) (c : cache) :
  cache_ok c ->
  Forall (fun p => uncaught p = None /\ (error_page p \/ dashboard_page p))
    (runs states c).
Proof.
  revert c. induction states as [|fs states IH]; intros c Hok; simpl;
    [constructor|].
  destruct (main_page fs c Hok) as [Hok' Hp].
  destruct (main fs c) as [p c'] eqn:E. simpl in *.
  constructor; [assumption|]. now apply IH.
Qed.

(** X11.  Whatever the files are from one run to the next, every run that
    starts from what the runs before it left in the cache ends without an
    exception, and its page is whole: either the title and one error box
    and nothing else, or the title, the two cards, the trend chart and the
    category chart.  No page shows a card or a chart beside an error. *)
Theorem every_page_is_whole (states : list filesystem) :
  Forall (fun p => uncaught p = None /\ (error_page p \/ dashboard_page p))
    (runs states []).
Proof.
  apply runs_pages. intros key df H. discriminate H.
Qed.

(* ================================================================== *)
(** * The columns the loader does not look into *)

(** X12.  [load_data] looks at no cell of [date] and at no cell of
    [product]: when it returns the table of a file, it returns the table
    of every file that differs from it in the fields of one of these two
    columns only, whatever these fields hold, a missing date or a date
    that is no day included; the other columns of the two tables are the
    same. *)
Theorem load_data_ignores_date_and_product
  (fs fs' : filesystem) (filepath c : string) (f f' : csv) (df : DataFrame) :
  c = "date" \/ c = "product" ->
  fs filepath = Some (File f) ->
  fs' filepath = Some (File f') ->
  same_outside c f f' ->
  load_data fs filepath = inl df ->
  exists df',
    load_data fs' filepath = inl df' /\
    forall c', c' <> c -> getitem df' c' = getitem df c'.
Proof.
  intros Hc Hf Hf' Hsame H.
  destruct (load_data_same_outside fs fs' filepath c f f' df)
    as [_ [_ [Hload Hget]]]; try assumption.
  { destruct Hc as [-> | ->]; simpl; intros Hin;
      decompose [or] Hin; discriminate || assumption. }
  eexists. split; [exact Hload|exact Hget].
Qed.

Lemma load_data_ignores_date_and_product_witness :
  exists df',
    load_data (only (a_file someday_lines)) DATA_FILE_PATH = inl df' /\
    forall c', c' <> "date" -> getitem df' c' = getitem example_frame c'.
Proof.
  apply (load_data_ignores_date_and_product
           (only (a_file example_lines)) (only (a_file someday_lines))
           DATA_FILE_PATH "date" (a_file example_lines) (a_file someday_lines)).
  - now left.
  - reflexivity.
  - reflexivity.
  - split; [reflexivity|].
    intros i Hi.
    do 8 (destruct i as [|i];
          [try reflexivity; exfalso; apply Hi; reflexivity|]).
    destruct i; reflexivity.
  - vm_compute. reflexivity.
Defined.

(** The table of that file: its dates are kept as text. *)
Example someday_table :
  exists df,
    load_data (only (a_file someday_lines)) DATA_FILE_PATH = inl df /\
    getitem df "date" = inl [Str "someday"; NaN; Str "later"].
Proof. eexists. split; reflexivity. Qed.

(* ================================================================== *)
(** * The charts against the card of the sales *)

(** X13.  On the table a load returns, when the amounts are integers whose
    sum is below [2 ^ 63], the bars of the category chart add up to the
    total of the sales on the card, and the points of the trend chart add
    up to the amounts of the records that have a date: to the total of the
    sales when no date is missing. *)
Theorem charts_add_up
  (fs : filesystem) (filepath : string) (df : DataFrame) (zs : list Z) :
  load_data fs filepath = inl df ->
  getitem df "total_amount" = inl (map Int zs) ->
  fold_right Z.add 0 zs < 2 ^ 63 ->
  exists dates k bars points,
    getitem df "date" = inl dates /\
    calculate_kpis df = inl k /\
    create_category_chart df = inl bars /\
    create_sales_trend_chart df = inl points /\
    total_sales k = Int (fold_right Z.add 0 zs) /\
    forallb is_int (y bars) = true /\
    forallb is_int (y points) = true /\
    int_sum (y bars) = fold_right Z.add 0 zs /\
    int_sum (y points) = fold_right Z.add 0 (dated_amounts dates zs) /\
    (~ In NaN dates -> int_sum (y points) = fold_right Z.add 0 zs).
Proof.
  intros H Hz Hfit. apply load_data_validated in H.
  destruct (category_sales_total df zs H Hz Hfit)
    as [by_category [k [Hc [Hk [Hci [Hsales Hct]]]]]].
  destruct (daily_sales_total_dated df zs H Hz Hfit)
    as [dates [daily [Hd [Hs [Hdi Hdt]]]]].
  exists dates, k.
  eexists _, _. split; [exact Hd|]. split; [exact Hk|].
  split; [unfold create_category_chart; rewrite Hc; reflexivity|].
  split; [unfold create_sales_trend_chart; rewrite Hs; reflexivity|].
  simpl. split; [exact Hsales|]. split; [exact Hci|]. split; [exact Hdi|].
  split; [exact Hct|]. split; [exact Hdt|].
  intros Hnn. unfold total in Hdt. rewrite Hdt.
  rewrite dated_amounts_all; [reflexivity|assumption|].
  pose proof (validated_lengths df _ _ _ _ H Hd Hz) as Hlen.
  now rewrite length_map in Hlen.
Qed.

End Dashboard.

(* ================================================================== *)
(** * The theorems at one choice of the library *)

(** What follows runs the dashboard with the sums taken from left to right
    and the groups sorted by insertion. *)
Existing Instance left_to_right.



(** With amounts in cents the total is a binary64 number: added from left
    to right, 0.1, 0.2 and 0.3 give the number next above the one that
    [0.6] is read as, and the card shows it rounded to the cent. *)
Example decimal_total :
  exists k,
    calculate_kpis decimal_frame = inl k /\
    total_sales k = Float (S754_finite false 5404319552844596 (-53)) /\
    parse_float "0.6" = Some (S754_finite false 5404319552844595 (-53)) /\
    format_currency (total_sales k) = inl "$0.60".
Proof. eexists. repeat split; vm_compute; reflexivity. Qed.

Lemma total_orders_at_most_records_witness :
  exists f ids k,
    only (a_file example_lines) DATA_FILE_PATH = Some (File f) /\
    getitem example_frame "order_id" = inl ids /\
    List.length ids = List.length (lines f) /\
    calculate_kpis example_frame = inl k /\
    (total_orders k <= List.length ids)%nat /\
    (total_orders k = List.length ids <->
     forall v, In v ids -> count_occ value_eq_dec ids v = 1%nat).
Proof.
  apply (@total_orders_at_most_records left_to_right
           (only (a_file example_lines)) DATA_FILE_PATH).
  vm_compute. reflexivity.
Defined.

Lemma empty_table_no_error_witness :
  (calculate_kpis (frame_of (a_file []))
     = inl {| total_sales := Int 0; total_orders := 0 |} /\
   daily_sales (frame_of (a_file [])) = inl [] /\
   category_sales (frame_of (a_file [])) = inl [] /\
   (exists fig, create_sales_trend_chart (frame_of (a_file [])) = inl fig /\
                x fig = [] /\ y fig = []) /\
   (exists fig, create_category_chart (frame_of (a_file [])) = inl fig /\
                x fig = [] /\ y fig = [])) /\
  (exists df, load_data (only (a_file [])) DATA_FILE_PATH = inl df /\
              empty_table df).
Proof.
  split.
  - apply (proj1 (@empty_table_no_error left_to_right)).
    intros c Hc. simpl in Hc.
    repeat (destruct Hc as [<-|Hc]; [reflexivity|]). destruct Hc.
  - apply (proj2 (@empty_table_no_error left_to_right) _ _ (a_file [])).
    + reflexivity.
    + reflexivity.
    + intros c Hc. exact Hc.
Defined.


(** The sequence for the three records of the example. *)
Example category_sales_example :
  category_sales example_frame
  = inl [(Str "Electronics", Int 10); (Str "Audio", Int 7);
         (Str "Accessories", Int 5)].
Proof. reflexivity. Qed.

Lemma order_id_check_witness :
  load_data_try (only (a_file (order_lines ""))) DATA_FILE_PATH
  = inr (ValueError "Data contains missing order IDs") /\
  (Forall (fun field => is_na field = false)
     (fields_of (a_file (order_lines " ")) "order_id") /\
   exists ids, getitem (frame_of (a_file (order_lines " "))) "order_id"
               = inl ids /\
               ~ In NaN ids /\ ~ In (Str "") ids) /\
  exists distinct,
    NoDup distinct /\
    (forall v, In v distinct <-> In v [Str ""; Str "A"; Str ""] /\ v <> NaN) /\
    total_orders {| total_sales := Int 6; total_orders := 2 |}
    = List.length distinct.
Proof.
  split; [|split].
  - apply (proj1 (@order_id_check left_to_right
                    (only (a_file (order_lines "")))
                    DATA_FILE_PATH (a_file (order_lines "")) eq_refl)).
    + reflexivity.
    + reflexivity.
    + exists "". split; [simpl; tauto|reflexivity].
  - apply (proj1 (proj2 (@order_id_check left_to_right
                           (only (a_file (order_lines " ")))
                           DATA_FILE_PATH (a_file (order_lines " ")) eq_refl))).
    reflexivity.
  - apply (proj2 (proj2 (@order_id_check left_to_right
                           (only (a_file (order_lines "A")))
                           DATA_FILE_PATH (a_file (order_lines "A")) eq_refl))
             [("total_amount", [Int 1; Int 2; Int 3]);
              ("order_id", [Str ""; Str "A"; Str ""])]).
    + reflexivity.
    + reflexivity.
Defined.

(** The page of the file with a header and no record. *)
Example main_on_header_only :
  shown (fst (main (only (a_file [])) []))
  = [st_title "📊 ShopSmart Sales Dashboard";
     st_columns 2;
     st_metric "Total Sales" "$0.00";
     st_metric "Total Orders" "0";
     st_plotly_chart
       {| kind := Line; x_name := "date"; y_name := "total_amount";
          x := []; y := [];
          fig_title := "Sales Trend Over Time";
          labels := [("date", "Date"); ("total_amount", "Sales ($)")];
          color := "#1f77b4";
          hovertemplate := "<b>Date</b>: %{x|%Y-%m-%d}<br>"
                           ++ "<b>Sales</b>: $%{y:,.2f}<extra></extra>";
          yaxis_tickformat := "$,.0f";
          categoryorder := None;
          height := 400 |} true;
     st_columns 2;
     st_plotly_chart
       {| kind := Bar; x_name := "category"; y_name := "total_amount";
          x := []; y := [];
          fig_title := "Sales by Product Category";
          labels := [("category", "Product Category");
                     ("total_amount", "Total Sales ($)")];
          color := "#2ca02c";
          hovertemplate := "<b>%{x}</b><br>Sales: $%{y:,.2f}<extra></extra>";
          yaxis_tickformat := "$,.0f";
          categoryorder := Some "total descending";
          height := 400 |} true]
  /\ uncaught (fst (main (only (a_file [])) [])) = None.
Proof. split; reflexivity. Qed.



Lemma calculate_kpis_order_independent_witness :
  calculate_kpis (frame_of (a_file shuffled_lines))
  = calculate_kpis example_frame.
Proof.
  apply (@calculate_kpis_order_independent left_to_right
           example_frame (frame_of (a_file shuffled_lines))
           [Int 10; Int 5; Int 7] [Int 7; Int 10; Int 5]
           [Str "A"; Str "A"; Str "B"] [Str "B"; Str "A"; Str "A"]);
    try reflexivity.
  - apply (Permutation_cons_app [Int 7] [Int 5]). apply perm_swap.
  - apply (Permutation_cons_app [Str "B"] [Str "A"]). apply perm_swap.
Defined.

Lemma charts_add_up_witness :
  exists dates k bars points,
    getitem undated_frame "date" = inl dates /\
    calculate_kpis undated_frame = inl k /\
    create_category_chart undated_frame = inl bars /\
    create_sales_trend_chart undated_frame = inl points /\
    total_sales k = Int (fold_right Z.add 0 [10; 5]) /\
    forallb is_int (y bars) = true /\
    forallb is_int (y points) = true /\
    int_sum (y bars) = fold_right Z.add 0 [10; 5] /\
    int_sum (y points) = fold_right Z.add 0 (dated_amounts dates [10; 5]) /\
    (~ In NaN dates -> int_sum (y points) = fold_right Z.add 0 [10; 5]).
Proof.
  apply (@charts_add_up left_to_right
           (only (a_file undated_lines)) DATA_FILE_PATH undated_frame [10; 5]).
  - vm_compute. reflexivity.
  - reflexivity.
  - reflexivity.
Defined.
